(** * uuid_migration_utils: integer primary key to UUID migration planner

    A shallow embedding of [uuid_migration_utils.py] and the properties of
    its relationship discovery ([find_related_models]), its remediation
    report ([generate_through_model_code]), its operation sequencer
    ([create_uuid_migration]) and its data step ([update_foreign_keys]). *)

From Stdlib Require Import List String Ascii ZArith Lia Bool DecimalString.
Import ListNotations.

Local Open Scope string_scope.
Local Open Scope list_scope.

(** ** Strings *)

(** An f-string is the concatenation of its pieces. *)
Definition fmt (pieces : list string) : string := String.concat "" pieces.

Definition nl : string := String (ascii_of_nat 10) EmptyString.

(** [str.lower()] on identifiers: the ASCII letters A-Z are mapped to a-z,
    every other byte is kept.  On a string of ASCII characters ([is_ascii])
    this is what [str.lower()] returns; Python also lower-cases the letters
    outside ASCII, which this function keeps as they are.  What is stated
    about the value of [lower] is stated for ASCII names. *)
Definition lower_ascii (c : ascii) : ascii :=
  let n := nat_of_ascii c in
  if (65 <=? n)%nat && (n <=? 90)%nat then ascii_of_nat (n + 32) else c.

Fixpoint lower (s : string) : string :=
  match s with
  | EmptyString => EmptyString
  | String c rest => String (lower_ascii c) (lower rest)
  end.

(** Every character of the string is an ASCII character. *)
Fixpoint is_ascii (s : string) : bool :=
  match s with
  | EmptyString => true
  | String c rest => (nat_of_ascii c <? 128)%nat && is_ascii rest
  end.

(** [str(n)] for a non-negative integer. *)
Definition str_of_nat (n : nat) : string :=
  NilEmpty.string_of_uint (Nat.to_uint n).

(** ** Exceptions *)

Inductive exn : Type :=
| LookupError
| NameError (variable : string)
| ValueError (message : string).

Inductive result (A : Type) : Type :=
| Ok (value : A)
| Raise (e : exn).
Arguments Ok {A} value.
Arguments Raise {A} e.

(** ** The model registry, as Django's introspection API shows it *)

(** A model class is identified by its application label and its class
    name; the registry holds one class per such pair, so comparing two
    classes with [==] is comparing these pairs. *)
Record ModelRef : Type := {
  app_label : string;
  object_name : string
}.

Definition ModelRef_eqb (a b : ModelRef) : bool :=
  String.eqb (app_label a) (app_label b) &&
  String.eqb (object_name a) (object_name b).

(** A concrete field of [_meta.fields]. [related_model] is [None] for a
    field that is not a relation. *)
Record Field : Type := {
  name : string;
  is_relation : bool;
  related_model : option ModelRef;
  null : bool
}.

(** What the code reads of a model's [_meta]. *)
Record Options : Type := {
  label : ModelRef;
  auto_created : bool;
  fields : list Field
}.

(** A field of [_meta.many_to_many]; [through] is
    [field.remote_field.through._meta]. *)
Record ManyToManyField : Type := {
  m2m_name : string;
  m2m_related_model : ModelRef;
  through : Options
}.

Record Model : Type := {
  _meta : Options;
  many_to_many : list ManyToManyField
}.

(** The application registry: every registered model class, in
    registration order. *)
Record Apps : Type := {
  all_models : list Model
}.

(** [apps.get_models()]: automatically created models are left out. *)
Definition get_models (apps : Apps) : list Model :=
  filter (fun m => negb (auto_created (_meta m))) (all_models apps).

(** [apps.get_model(app_label, model_name)]: the model name is looked up
    lower-cased; an unknown pair raises [LookupError]. *)
Definition get_model (apps : Apps) (app_name model_name : string) : result Model :=
  match find (fun m => String.eqb (app_label (label (_meta m))) app_name &&
                       String.eqb (lower (object_name (label (_meta m)))) (lower model_name))
             (all_models apps) with
  | Some m => Ok m
  | None => Raise LookupError
  end.

(** [field.related_model == parent_model_obj] *)
Definition related_to (r : option ModelRef) (parent_model_obj : Model) : bool :=
  match r with
  | Some m => ModelRef_eqb m (label (_meta parent_model_obj))
  | None => false
  end.

(** ** The dictionaries that describe relations *)

(** [{'model': .., 'app_name': .., 'fk_field': ..}]; in a list given by the
    caller the key ['app_name'] is optional. *)
Record ChildInfo : Type := {
  c_model : string;
  c_app_name : option string;
  c_fk_field : string
}.

(** [{'model': .., 'app_name': .., 'field_name': ..}], and for a field
    declared on the parent model also ['related_model'] and
    ['related_app']. *)
Record M2MInfo : Type := {
  m_model : string;
  m_app_name : string;
  m_field_name : string;
  m_related : option (string * string)
}.

(** [{'model': .., 'app_name': .., 'field_name': ..}] *)
Record ThroughInfo : Type := {
  t_model : string;
  t_app_name : string;
  t_field_name : string
}.

(** ** find_related_models *)

(** The three lists the function appends to. *)
Record Found : Type := {
  fk_models : list ChildInfo;
  implicit_m2m : list M2MInfo;
  through_models : list ThroughInfo
}.

Definition append_fk (acc : Found) (e : ChildInfo) : Found :=
  {| fk_models := fk_models acc ++ [e];
     implicit_m2m := implicit_m2m acc;
     through_models := through_models acc |}.

Definition append_implicit (acc : Found) (e : M2MInfo) : Found :=
  {| fk_models := fk_models acc;
     implicit_m2m := implicit_m2m acc ++ [e];
     through_models := through_models acc |}.

Definition append_through (acc : Found) (e : ThroughInfo) : Found :=
  {| fk_models := fk_models acc;
     implicit_m2m := implicit_m2m acc;
     through_models := through_models acc ++ [e] |}.

(** [for field in model._meta.fields] (lines 57-64) *)
Definition scan_fields (parent_model_obj model : Model) (acc : Found) : Found :=
  fold_left
    (fun acc field =>
       if is_relation field && related_to (related_model field) parent_model_obj
       then append_fk acc
              {| c_model := object_name (label (_meta model));
                 c_app_name := Some (app_label (label (_meta model)));
                 c_fk_field := name field |}
       else acc)
    (fields (_meta model)) acc.

(** [for through_field in through_model._meta.fields] (lines 81-87) *)
Definition scan_through_fields (parent_model_obj : Model) (through_model : Options)
    (acc : Found) : Found :=
  fold_left
    (fun acc through_field =>
       if is_relation through_field &&
          related_to (related_model through_field) parent_model_obj
       then append_through acc
              {| t_model := object_name (label through_model);
                 t_app_name := app_label (label through_model);
                 t_field_name := name through_field |}
       else acc)
    (fields through_model) acc.

(** [for field in model._meta.many_to_many] (lines 67-87) *)
Definition scan_many_to_many (parent_model_obj model : Model) (acc : Found) : Found :=
  fold_left
    (fun acc field =>
       if related_to (Some (m2m_related_model field)) parent_model_obj then
         if auto_created (through field)
         then append_implicit acc
                {| m_model := object_name (label (_meta model));
                   m_app_name := app_label (label (_meta model));
                   m_field_name := m2m_name field;
                   m_related := None |}
         else scan_through_fields parent_model_obj (through field) acc
       else acc)
    (many_to_many model) acc.

(** [for other_field in through_model._meta.fields] (lines 109-119) *)
Definition scan_other_fields (parent_model_obj : Model) (through_model : Options)
    (through_field : Field) (acc : Found) : Found :=
  fold_left
    (fun acc other_field =>
       if is_relation other_field &&
          related_to (related_model other_field) parent_model_obj &&
          negb (String.eqb (name other_field) (name through_field))
       then append_through acc
              {| t_model := object_name (label through_model);
                 t_app_name := app_label (label through_model);
                 t_field_name := name other_field |}
       else acc)
    (fields through_model) acc.

(** [for field in parent_model_obj._meta.many_to_many] (lines 90-119) *)
Definition scan_parent_many_to_many (app_name parent_model : string)
    (parent_model_obj : Model) (acc : Found) : Found :=
  fold_left
    (fun acc field =>
       if auto_created (through field)
       then append_implicit acc
              {| m_model := parent_model;
                 m_app_name := app_name;
                 m_field_name := m2m_name field;
                 m_related := Some (object_name (m2m_related_model field),
                                    app_label (m2m_related_model field)) |}
       else
         fold_left
           (fun acc through_field =>
              if is_relation through_field &&
                 negb (related_to (related_model through_field) parent_model_obj)
              then scan_other_fields parent_model_obj (through field) through_field acc
              else acc)
           (fields (through field)) acc)
    (many_to_many parent_model_obj) acc.

Definition find_related_models (app_name parent_model : string) (apps_registry : Apps)
  : result Found :=
  match get_model apps_registry app_name parent_model with
  | Raise e => Raise e
  | Ok parent_model_obj =>
      let acc := {| fk_models := []; implicit_m2m := []; through_models := [] |} in
      let acc :=
        fold_left
          (fun acc model =>
             scan_many_to_many parent_model_obj model
               (scan_fields parent_model_obj model acc))
          (get_models apps_registry) acc in
      Ok (scan_parent_many_to_many app_name parent_model parent_model_obj acc)
  end.

(** ** generate_through_model_code *)

(** The local names of one iteration of the loop (lines 131-144). *)
Record ThroughNames : Type := {
  source_model : string;
  source_app : string;
  hint_field_name : string;
  target_model : string;
  target_app : string
}.

Definition through_names (m2m : M2MInfo) : ThroughNames :=
  let source_model := m_model m2m in
  let source_app := m_app_name m2m in
  let field_name := m_field_name m2m in
  match m_related m2m with
  | Some (related_model, related_app) =>
      (* 'related_model' in m2m *)
      {| source_model := source_model; source_app := source_app;
         hint_field_name := field_name;
         target_model := related_model; target_app := related_app |}
  | None =>
      let target_model := m_model m2m in
      let target_app := m_app_name m2m in
      (* m2m.get('related_model', source_model), m2m.get('related_app', source_app) *)
      let source_model :=
        match m_related m2m with Some (rm, _) => rm | None => source_model end in
      let source_app :=
        match m_related m2m with Some (_, ra) => ra | None => source_app end in
      {| source_model := source_model; source_app := source_app;
         hint_field_name := field_name;
         target_model := target_model; target_app := target_app |}
  end.

(** Line 147 *)
Definition through_model_name (m2m : M2MInfo) : string :=
  let n := through_names m2m in
  fmt [source_model n; target_model n; "Through"].

(** Line 150 *)
Definition automatic_table_name (m2m : M2MInfo) : string :=
  let n := through_names m2m in
  fmt [lower (source_app n); "_"; lower (source_model n); "_";
       lower (hint_field_name n)].

(** Lines 153-163 *)
Definition model_code (m2m : M2MInfo) : string :=
  let through_model_name := through_model_name m2m in
  let source_model := source_model (through_names m2m) in
  let source_app := source_app (through_names m2m) in
  let target_model := target_model (through_names m2m) in
  let target_app := target_app (through_names m2m) in
  fmt [
    nl;
    "class "; through_model_name; "(models.Model):"; nl;
    "    "; lower source_model; " = models.ForeignKey('"; source_app; "."; source_model; "', on_delete=models.CASCADE, db_index=True)"; nl;
    "    "; lower target_model; " = models.ForeignKey('"; target_app; "."; target_model; "', on_delete=models.CASCADE, db_index=True)"; nl;
    "    # Дополнительные поля здесь"; nl;
    "    "; nl;
    "    class Meta:"; nl;
    "        constraints = ["; nl;
    "            models.UniqueConstraint(fields=['"; lower source_model; "', '"; lower target_model; "'], name='unique_"; lower source_model; "_"; lower target_model; "')"; nl;
    "        ]"; nl
  ].

(** The text of lines 166-219 before and after the first occurrence of the
    join-table name. *)
Definition migration_hint_parts (m2m : M2MInfo) : list string * list string :=
  let through_model_name := through_model_name m2m in
  let source_model := source_model (through_names m2m) in
  let source_app := source_app (through_names m2m) in
  let field_name := hint_field_name (through_names m2m) in
  let target_model := target_model (through_names m2m) in
  let target_app := target_app (through_names m2m) in
  ([
    nl;
    "# ВАЖНО: Простое изменение модели и создание обычной миграции НЕ СРАБОТАЕТ"; nl;
    "# Вместо этого после создания through-модели "; through_model_name; ":"; nl;
    "# 1. Создайте миграцию: python manage.py makemigrations"; nl;
    "# 2. ОТРЕДАКТИРУЙТЕ файл миграции, заменив его содержимое на:"; nl;
    nl;
    "from django.db import migrations, models"; nl;
    "import django.db.models.deletion"; nl;
    nl;
    "class Migration(migrations.Migration):"; nl;
    nl;
    "    dependencies = ["; nl;
    "        ('"; source_app; "', 'XXXX_previous_migration'),  # Укажите предыдущую миграцию"; nl;
    "    ]"; nl;
    nl;
    "    state_operations = ["; nl;
    "        migrations.CreateModel("; nl;
    "            name='"; through_model_name; "',"; nl;
    "            fields=["; nl;
    "                ('id', models.AutoField(auto_created=True, primary_key=True, serialize=False, verbose_name='ID')),"; nl;
    "                ('"; lower source_model; "', models.ForeignKey(on_delete=django.db.models.deletion.CASCADE, to='"; source_app; "."; source_model; "', db_index=True)),"; nl;
    "                ('"; lower target_model; "', models.ForeignKey(on_delete=django.db.models.deletion.CASCADE, to='"; target_app; "."; target_model; "', db_index=True)),"; nl;
    "                # Дополнительные поля модели здесь"; nl;
    "            ],"; nl;
    "        ),"; nl;
    "        # Указываем Django использовать существующую таблицу для новой модели"; nl;
    "        migrations.AlterModelTable("; nl;
    "            name='"; lower through_model_name; "',"; nl;
    "            table='"
   ],
   [
    "',  # Имя автоматически созданной m2m таблицы"; nl;
    "        ),"; nl;
    "        # Меняем состояние модели для использования through"; nl;
    "        migrations.AlterField("; nl;
    "            model_name='"; lower source_model; "',"; nl;
    "            name='"; field_name; "',"; nl;
    "            field=models.ManyToManyField(through='"; source_app; "."; through_model_name; "', to='"; target_app; "."; target_model; "'),"; nl;
    "        ),"; nl;
    "    ]"; nl;
    nl;
    "    operations = ["; nl;
    "        # Обновляем только состояние Django, но не базу данных"; nl;
    "        migrations.SeparateDatabaseAndState(state_operations=state_operations),"; nl;
    "        # Добавляем необходимые дополнительные поля в существующую таблицу"; nl;
    "        # migrations.AddField("; nl;
    "        #     model_name='"; through_model_name; "',"; nl;
    "        #     name='some_extra_field',"; nl;
    "        #     field=models.CharField(max_length=100, null=True),"; nl;
    "        # ),"; nl;
    "        # Возвращаем имя таблицы в нормальное состояние"; nl;
    "        migrations.AlterModelTable("; nl;
    "            name='"; lower through_model_name; "',"; nl;
    "            table=None,"; nl;
    "        ),"; nl;
    "    ]"; nl
   ]).

(** Lines 166-219 *)
Definition migration_hint (m2m : M2MInfo) : string :=
  fmt (fst (migration_hint_parts m2m) ++ [automatic_table_name m2m] ++
       snd (migration_hint_parts m2m)).

(** A Python dict with string keys: insertion-ordered; assigning to a key
    that is present replaces its value and keeps its position. *)
Definition Dict : Type := list (string * string).

Fixpoint dict_set (d : Dict) (k v : string) : Dict :=
  match d with
  | [] => [(k, v)]
  | (k', v') :: rest =>
      if String.eqb k' k then (k', v) :: rest else (k', v') :: dict_set rest k v
  end.

Definition generate_through_model_code (implicit_m2m : list M2MInfo) : Dict * Dict :=
  fold_left
    (fun '(through_models_code, migration_hints) m2m =>
       (dict_set through_models_code (through_model_name m2m) (model_code m2m),
        dict_set migration_hints (through_model_name m2m) (migration_hint m2m)))
    implicit_m2m ([], []).

(** ** The error message of create_uuid_migration (lines 248-279) *)

Definition truthy {A : Type} (l : list A) : bool :=
  match l with [] => false | _ :: _ => true end.

Definition enumerate {A : Type} (l : list A) : list (nat * A) :=
  combine (seq 0 (List.length l)) l.

Definition error_message (parent_model : string) (implicit_m2m : list M2MInfo) : string :=
  let '(through_models_code, migration_hints) := generate_through_model_code implicit_m2m in
  let error_message :=
    fmt ["Обнаружены неявные M2M отношения для модели "; parent_model; ". ";
         "Перед миграцией на UUID необходимо заменить их на явные through модели."; nl; nl;
         "Найдены следующие неявные M2M отношения:"; nl] in
  let error_message :=
    fold_left
      (fun error_message '(i, m2m) =>
         let model := m_model m2m in
         let field := m_field_name m2m in
         let app := m_app_name m2m in
         (error_message ++
          fmt [str_of_nat (i + 1); ". Модель "; app; "."; model; ", поле "; field; nl])%string)
      (enumerate implicit_m2m) error_message in
  let error_message :=
    (error_message ++ fmt [nl; "---------МОДЕЛИ THROUGH---------"; nl])%string in
  let error_message :=
    (error_message ++ fmt ["Создайте следующие through модели:"; nl; nl])%string in
  let error_message :=
    fold_left
      (fun error_message '(through_name, code) =>
         (error_message ++ fmt ["# Модель "; through_name; ":"; nl; code; nl])%string)
      through_models_code error_message in
  let error_message :=
    (error_message ++ fmt [nl; "---------МИГРАЦИОННЫЕ ФАЙЛЫ---------"; nl])%string in
  let error_message :=
    (error_message ++
     fmt ["ВАЖНО: Простое изменение модели не сработает! Необходимо использовать специальную технику миграции:"; nl; nl])%string in
  let error_message :=
    fold_left
      (fun error_message '(through_name, hint) =>
         (error_message ++ fmt ["# Миграция для "; through_name; ":"; nl; hint; nl])%string)
      migration_hints error_message in
  (error_message ++
   fmt [nl; "---------ПОСЛЕ МИГРАЦИИ---------"; nl;
        "После создания through моделей и применения миграции, обновите ваши модели, заменив:"; nl;
        "tags = models.ManyToManyField(Tag)"; nl; nl;
        "на:"; nl;
        "tags = models.ManyToManyField(Tag, through='ProductTagThrough')"; nl; nl;
        "Только после этого запустите миграцию UUID."])%string.

(** ** Migration operations *)

Inductive FieldSpec : Type :=
| UUIDField_null
    (* models.UUIDField(null=True) *)
| UUIDField_default
    (* models.UUIDField(default=uuid.uuid4, editable=False, serialize=False) *)
| UUIDField_primary_key
    (* models.UUIDField(default=uuid.uuid4, editable=False, primary_key=True,
       serialize=False) *)
| ForeignKey_cascade (to : string)
    (* models.ForeignKey(on_delete=models.CASCADE, to=..) *).

(** The three lambda expressions of create_uuid_migration.  A Python
    closure keeps a reference to the variables of the enclosing call, not
    their values at the time the lambda is evaluated: every lambda object
    built from one of these expressions in one call shares the cells of that
    call's frame, and reads them when it is called. *)
Inductive Lambda : Type :=
| lambda_generate_uuid_for_model  (* line 303 *)
| lambda_update_through           (* line 337 *)
| lambda_update_child             (* line 379 *).

Inductive Operation : Type :=
| AddField (model_name name : string) (field : FieldSpec)
| RunPython (code : Lambda)
| AlterField (model_name name : string) (field : FieldSpec)
| RemoveField (model_name name : string)
| RenameField (model_name old_name new_name : string).

Record Migration : Type := {
  dependencies : list (string * string);
  operations : list Operation
}.

(** ** The frame of one call of create_uuid_migration *)

(** [local_x] is the local variable [x] of the call; a loop variable is
    unbound ([None]) until its first assignment. *)
Record Frame : Type := {
  local_parent_model : string;
  local_app_name : string;
  local_pk_field : string;
  local_operations : list Operation;
  local_through_model : option string;
  local_field_name : option string;
  local_through_app : option string;
  local_child_model : option string;
  local_fk_field : option string;
  local_child_app : option string
}.

(** Code that runs in a frame and may raise; the frame at the time of the
    exception is kept. *)
Definition M (A : Type) : Type := Frame -> result A * Frame.

Definition ret {A : Type} (a : A) : M A := fun fr => (Ok a, fr).

Definition bind {A B : Type} (m : M A) (k : A -> M B) : M B :=
  fun fr =>
    match m fr with
    | (Ok a, fr') => k a fr'
    | (Raise e, fr') => (Raise e, fr')
    end.

Definition raise {A : Type} (e : exn) : M A := fun fr => (Raise e, fr).

Definition lift {A : Type} (r : result A) : M A := fun fr => (r, fr).

Notation "x <- c ;; k" := (bind c (fun x => k))
  (at level 61, c at next level, right associativity).
Notation "c ;; k" := (bind c (fun _ => k))
  (at level 61, right associativity).

Fixpoint for_each {A : Type} (l : list A) (body : A -> M unit) : M unit :=
  match l with
  | [] => ret tt
  | x :: rest => body x ;; for_each rest body
  end.

(** [operations.append(op)] *)
Definition operations_append (op : Operation) : M unit :=
  fun fr =>
    (Ok tt,
     {| local_parent_model := local_parent_model fr;
        local_app_name := local_app_name fr;
        local_pk_field := local_pk_field fr;
        local_operations := local_operations fr ++ [op];
        local_through_model := local_through_model fr;
        local_field_name := local_field_name fr;
        local_through_app := local_through_app fr;
        local_child_model := local_child_model fr;
        local_fk_field := local_fk_field fr;
        local_child_app := local_child_app fr |}).

(** [through_model = ..; field_name = ..; through_app = ..] *)
Definition assign_through (through_model field_name through_app : string) : M unit :=
  fun fr =>
    (Ok tt,
     {| local_parent_model := local_parent_model fr;
        local_app_name := local_app_name fr;
        local_pk_field := local_pk_field fr;
        local_operations := local_operations fr;
        local_through_model := Some through_model;
        local_field_name := Some field_name;
        local_through_app := Some through_app;
        local_child_model := local_child_model fr;
        local_fk_field := local_fk_field fr;
        local_child_app := local_child_app fr |}).

(** [child_model = ..; fk_field = ..; child_app = ..] *)
Definition assign_child (child_model fk_field child_app : string) : M unit :=
  fun fr =>
    (Ok tt,
     {| local_parent_model := local_parent_model fr;
        local_app_name := local_app_name fr;
        local_pk_field := local_pk_field fr;
        local_operations := local_operations fr;
        local_through_model := local_through_model fr;
        local_field_name := local_field_name fr;
        local_through_app := local_through_app fr;
        local_child_model := Some child_model;
        local_fk_field := Some fk_field;
        local_child_app := Some child_app |}).

(** [d.get('app_name', default)] *)
Definition get_default (v : option string) (default : string) : string :=
  match v with Some x => x | None => default end.

Definition get_frame : M Frame := fun fr => (Ok fr, fr).

(** Reading a local variable that may be unbound. *)
Definition bound {A : Type} (variable : string) (v : option A) : M A :=
  match v with
  | Some x => ret x
  | None => raise (NameError variable)
  end.

(** ** create_uuid_migration *)

Definition initial_frame (parent_model app_name pk_field : string) : Frame :=
  {| local_parent_model := parent_model;
     local_app_name := app_name;
     local_pk_field := pk_field;
     local_operations := [];                       (* line 239 *)
     local_through_model := None;
     local_field_name := None;
     local_through_app := None;
     local_child_model := None;
     local_fk_field := None;
     local_child_app := None |}.

(** Lines 320-359, one iteration. *)
Definition through_swap (app_name : string) (through : ThroughInfo) : M unit :=
  let through_model := t_model through in
  let field_name := t_field_name through in
  let through_app := get_default (Some (t_app_name through)) app_name in
  assign_through through_model field_name through_app ;;
  operations_append (AddField (lower through_model) (fmt [field_name; "_uuid"]) UUIDField_null) ;;
  operations_append (RunPython lambda_update_through) ;;
  operations_append (RemoveField (lower through_model) field_name) ;;
  operations_append (RenameField (lower through_model) (fmt [field_name; "_uuid"]) field_name).

(** Lines 362-401, one iteration. *)
Definition child_swap (app_name : string) (child : ChildInfo) : M unit :=
  let child_model := c_model child in
  let fk_field := c_fk_field child in
  let child_app := get_default (c_app_name child) app_name in
  assign_child child_model fk_field child_app ;;
  operations_append (AddField (lower child_model) (fmt [fk_field; "_uuid"]) UUIDField_null) ;;
  operations_append (RunPython lambda_update_child) ;;
  operations_append (RemoveField (lower child_model) fk_field) ;;
  operations_append (RenameField (lower child_model) (fmt [fk_field; "_uuid"]) fk_field).

(** Lines 430-441, one iteration. *)
Definition child_set_foreign_key (parent_model app_name : string) (child : ChildInfo)
  : M unit :=
  let child_model := c_model child in
  let fk_field := c_fk_field child in
  let child_app := get_default (c_app_name child) app_name in
  assign_child child_model fk_field child_app ;;
  operations_append
    (AlterField (lower child_model) fk_field
       (ForeignKey_cascade (fmt [app_name; "."; parent_model]))).

(** Lines 445-456, one iteration. *)
Definition through_set_foreign_key (parent_model app_name : string)
    (through : ThroughInfo) : M unit :=
  let through_model := t_model through in
  let field_name := t_field_name through in
  let through_app := get_default (Some (t_app_name through)) app_name in
  assign_through through_model field_name through_app ;;
  operations_append
    (AlterField (lower through_model) field_name
       (ForeignKey_cascade (fmt [app_name; "."; parent_model]))).

(** The body of the function, run in the frame of the call.
    [django_apps] is the global registry that [find_related_models] reads
    when it is called without [apps_registry]. *)
Definition create_uuid_migration_body (django_apps : Apps)
    (parent_model app_name : string) (dependencies : list (string * string))
    (child_models : option (list ChildInfo)) (pk_field : string)
    (auto_detect_relations : bool) : M Migration :=
  (* lines 242-285; [through_models] stays unbound without auto-detection *)
  detected <-
    (if auto_detect_relations then
       found <- lift (find_related_models app_name parent_model django_apps) ;;
       let fk_related := fk_models found in
       let implicit_m2m := implicit_m2m found in
       let through_models := through_models found in
       if truthy implicit_m2m
       then raise (ValueError (error_message parent_model implicit_m2m))
       else
         ret (match child_models with
              | None => Some fk_related
              | Some _ => child_models
              end, Some through_models)
     else ret (child_models, None)) ;;
  let through_models : option (list ThroughInfo) := snd detected in
  (* lines 288-289 *)
  let child_models := match fst detected with None => [] | Some l => l end in
  (* 1-3 *)
  operations_append
    (AddField (lower parent_model) (fmt [pk_field; "_uuid"]) UUIDField_null) ;;
  operations_append (RunPython lambda_generate_uuid_for_model) ;;
  operations_append
    (AlterField (lower parent_model) (fmt [pk_field; "_uuid"]) UUIDField_default) ;;
  (* 4 *)
  (if auto_detect_relations then
     through_models <- bound "through_models" through_models ;;
     if truthy through_models
     then for_each through_models (through_swap app_name)
     else ret tt
   else ret tt) ;;
  (* 5 *)
  for_each child_models (child_swap app_name) ;;
  (* 6-8 *)
  operations_append (RemoveField (lower parent_model) pk_field) ;;
  operations_append
    (RenameField (lower parent_model) (fmt [pk_field; "_uuid"]) pk_field) ;;
  operations_append
    (AlterField (lower parent_model) pk_field UUIDField_primary_key) ;;
  (* 9 *)
  for_each child_models (child_set_foreign_key parent_model app_name) ;;
  (* 10 *)
  (if auto_detect_relations then
     through_models <- bound "through_models" through_models ;;
     if truthy through_models
     then for_each through_models (through_set_foreign_key parent_model app_name)
     else ret tt
   else ret tt) ;;
  fr <- get_frame ;;
  ret {| dependencies := dependencies; operations := local_operations fr |}.

(** A call of the function: its result, and its frame when it returned or
    raised.  The lambdas in the returned operations keep that frame alive. *)
Definition create_uuid_migration (django_apps : Apps)
    (parent_model app_name : string) (dependencies : list (string * string))
    (child_models : option (list ChildInfo)) (pk_field : string)
    (auto_detect_relations : bool) : result Migration * Frame :=
  create_uuid_migration_body django_apps parent_model app_name dependencies
    child_models pk_field auto_detect_relations
    (initial_frame parent_model app_name pk_field).

(** ** Running a RunPython operation *)

(** What a lambda calls, with the arguments it passes after [apps] and
    [schema_editor]. *)
Inductive Call : Type :=
| generate_uuid_for_model_call (model_name app_name pk_field : string)
| update_foreign_keys_call
    (parent_model child_model app_name child_app_name fk_field pk_field : string).

Definition read_cell (variable : string) (cell : option string) : result string :=
  match cell with
  | Some v => Ok v
  | None => Raise (NameError variable)
  end.

Definition and_then {A B : Type} (r : result A) (k : A -> result B) : result B :=
  match r with
  | Ok a => k a
  | Raise e => Raise e
  end.

(** Calling a lambda once create_uuid_migration has returned: its free
    variables are read from the frame as the call left it. *)
Definition call_lambda (frame : Frame) (code : Lambda) : result Call :=
  match code with
  | lambda_generate_uuid_for_model =>
      Ok (generate_uuid_for_model_call (local_parent_model frame)
            (local_app_name frame) (local_pk_field frame))
  | lambda_update_through =>
      and_then (read_cell "through_model" (local_through_model frame)) (fun through_model =>
      and_then (read_cell "through_app" (local_through_app frame)) (fun through_app =>
      and_then (read_cell "field_name" (local_field_name frame)) (fun field_name =>
      Ok (update_foreign_keys_call (local_parent_model frame) through_model
            (local_app_name frame) through_app field_name (local_pk_field frame)))))
  | lambda_update_child =>
      and_then (read_cell "child_model" (local_child_model frame)) (fun child_model =>
      and_then (read_cell "child_app" (local_child_app frame)) (fun child_app =>
      and_then (read_cell "fk_field" (local_fk_field frame)) (fun fk_field =>
      Ok (update_foreign_keys_call (local_parent_model frame) child_model
            (local_app_name frame) child_app fk_field (local_pk_field frame)))))
  end.

(** ** update_foreign_keys *)

(** The rows of the two tables, reduced to the attributes the function
    reads and writes: [pk] and [pk_uuid] are [<pk_field>] and
    [<pk_field>_uuid] of a parent row, [fk_id] and [fk_uuid] are
    [<fk_field>_id] and [<fk_field>_uuid] of a child row.  [None] is
    Python's [None]. *)
Record ParentRow : Type := {
  pk : Z;
  pk_uuid : option N
}.

Record ChildRow : Type := {
  fk_id : option Z;
  fk_uuid : option N
}.

Inductive QueryError : Type :=
| DoesNotExist
| MultipleObjectsReturned.

(** [ParentModel.objects.get(<pk_field>=value)] *)
Definition objects_get (ParentModel : list ParentRow) (value : option Z)
  : ParentRow + QueryError :=
  match filter (fun p => match value with
                         | Some v => Z.eqb (pk p) v
                         | None => false
                         end) ParentModel with
  | [] => inr DoesNotExist
  | [p] => inl p
  | _ :: _ :: _ => inr MultipleObjectsReturned
  end.

(** The loop of lines 23-33 over the child rows.  [fk_null] is
    [ChildModel._meta.get_field(fk_field).null].  The result is the child
    table as the function leaves it and the exception that ended it, if any:
    only [DoesNotExist] is caught. *)
Fixpoint update_foreign_keys (ParentModel : list ParentRow) (fk_null : bool)
    (children : list ChildRow) : list ChildRow * option QueryError :=
  match children with
  | [] => ([], None)
  | child :: rest =>
      match objects_get ParentModel (fk_id child) with
      | inl parent_instance =>
          let saved := {| fk_id := fk_id child; fk_uuid := pk_uuid parent_instance |} in
          let '(rest', e) := update_foreign_keys ParentModel fk_null rest in
          (saved :: rest', e)
      | inr DoesNotExist =>
          let saved :=
            if fk_null
            then {| fk_id := fk_id child; fk_uuid := None |}
            else child in
          let '(rest', e) := update_foreign_keys ParentModel fk_null rest in
          (saved :: rest', e)
      | inr MultipleObjectsReturned =>
          (child :: rest, Some MultipleObjectsReturned)
      end
  end.

(** ** The shop scenario *)

Module Shop.

Definition Order_ref : ModelRef := {| app_label := "shop"; object_name := "Order" |}.
Definition Tag_ref : ModelRef := {| app_label := "shop"; object_name := "Tag" |}.

Definition AutoField (n : string) : Field :=
  {| name := n; is_relation := false; related_model := None; null := false |}.

Definition ForeignKey (n : string) (to : ModelRef) (nullable : bool) : Field :=
  {| name := n; is_relation := true; related_model := Some to; null := nullable |}.

(** class OrderTagThrough: order = ForeignKey(Order), tag = ForeignKey(Tag) *)
Definition OrderTagThrough_meta : Options :=
  {| label := {| app_label := "shop"; object_name := "OrderTagThrough" |};
     auto_created := false;
     fields := [AutoField "id"; ForeignKey "order" Order_ref false;
                ForeignKey "tag" Tag_ref false] |}.

Definition OrderTagThrough : Model :=
  {| _meta := OrderTagThrough_meta; many_to_many := [] |}.

Definition Tag : Model :=
  {| _meta := {| label := Tag_ref; auto_created := false;
                 fields := [AutoField "id"] |};
     many_to_many := [] |}.

(** class Order: tags = ManyToManyField(Tag, through=OrderTagThrough) *)
Definition Order : Model :=
  {| _meta := {| label := Order_ref; auto_created := false;
                 fields := [AutoField "id"] |};
     many_to_many :=
       [{| m2m_name := "tags"; m2m_related_model := Tag_ref;
           through := OrderTagThrough_meta |}] |}.

(** class LineItem: order = ForeignKey(Order) *)
Definition LineItem : Model :=
  {| _meta := {| label := {| app_label := "shop"; object_name := "LineItem" |};
                 auto_created := false;
                 fields := [AutoField "id"; ForeignKey "order" Order_ref false] |};
     many_to_many := [] |}.

(** class Coupon: no relation at all *)
Definition Coupon : Model :=
  {| _meta := {| label := {| app_label := "shop"; object_name := "Coupon" |};
                 auto_created := false;
                 fields := [AutoField "id"] |};
     many_to_many := [] |}.

Definition registry : Apps :=
  {| all_models := [Tag; Order; LineItem; OrderTagThrough] |}.

(** The same shop with the Coupon model. *)
Definition registry_with_coupon : Apps :=
  {| all_models := [Tag; Order; LineItem; OrderTagThrough; Coupon] |}.

Definition LineItem_order : ChildInfo :=
  {| c_model := "LineItem"; c_app_name := Some "shop"; c_fk_field := "order" |}.

Definition OrderTagThrough_order_fk : ChildInfo :=
  {| c_model := "OrderTagThrough"; c_app_name := Some "shop"; c_fk_field := "order" |}.

Definition OrderTagThrough_order : ThroughInfo :=
  {| t_model := "OrderTagThrough"; t_app_name := "shop"; t_field_name := "order" |}.

(** What discovery returns for Order in [registry]. *)
Definition discovered : Found :=
  {| fk_models := [LineItem_order; OrderTagThrough_order_fk];
     implicit_m2m := [];
     through_models := [OrderTagThrough_order] |}.

(** A child list a caller may pass: two models with a foreign key to
    Order, the second one in another application. *)
Definition Invoice_order : ChildInfo :=
  {| c_model := "Invoice"; c_app_name := Some "billing";
     c_fk_field := "customer_order" |}.

End Shop.

(** ** A join model with a third foreign key *)

Module Audited.

Definition User_ref : ModelRef := {| app_label := "auth"; object_name := "User" |}.

(** class OrderTagThrough: order = ForeignKey(Order), tag = ForeignKey(Tag),
    added_by = ForeignKey(User) *)
Definition OrderTagThrough_meta : Options :=
  {| label := {| app_label := "shop"; object_name := "OrderTagThrough" |};
     auto_created := false;
     fields := [Shop.AutoField "id"; Shop.ForeignKey "order" Shop.Order_ref false;
                Shop.ForeignKey "tag" Shop.Tag_ref false;
                Shop.ForeignKey "added_by" User_ref true] |}.

Definition OrderTagThrough : Model :=
  {| _meta := OrderTagThrough_meta; many_to_many := [] |}.

Definition User : Model :=
  {| _meta := {| label := User_ref; auto_created := false;
                 fields := [Shop.AutoField "id"] |};
     many_to_many := [] |}.

Definition Order : Model :=
  {| _meta := {| label := Shop.Order_ref; auto_created := false;
                 fields := [Shop.AutoField "id"] |};
     many_to_many :=
       [{| m2m_name := "tags"; m2m_related_model := Shop.Tag_ref;
           through := OrderTagThrough_meta |}] |}.

Definition registry : Apps :=
  {| all_models := [User; Shop.Tag; Order; OrderTagThrough] |}.

(** What discovery returns for Order in [registry]. *)
Definition discovered : Found :=
  {| fk_models := [Shop.OrderTagThrough_order_fk];
     implicit_m2m := [];
     through_models := [Shop.OrderTagThrough_order; Shop.OrderTagThrough_order] |}.

End Audited.

(** ** A model with an implicit many-to-many relation *)

Module Catalog.

Definition Product_ref : ModelRef :=
  {| app_label := "catalog"; object_name := "Product" |}.
Definition Tag_ref : ModelRef := {| app_label := "catalog"; object_name := "Tag" |}.

(** The join model Django creates for Product.tags. *)
Definition Product_tags_meta : Options :=
  {| label := {| app_label := "catalog"; object_name := "Product_tags" |};
     auto_created := true;
     fields := [Shop.AutoField "id"; Shop.ForeignKey "product" Product_ref false;
                Shop.ForeignKey "tag" Tag_ref false] |}.

Definition Product_tags : Model :=
  {| _meta := Product_tags_meta; many_to_many := [] |}.

Definition Tag : Model :=
  {| _meta := {| label := Tag_ref; auto_created := false;
                 fields := [Shop.AutoField "id"] |};
     many_to_many := [] |}.

(** class Product: tags = ManyToManyField(Tag) *)
Definition Product : Model :=
  {| _meta := {| label := Product_ref; auto_created := false;
                 fields := [Shop.AutoField "id"] |};
     many_to_many :=
       [{| m2m_name := "tags"; m2m_related_model := Tag_ref;
           through := Product_tags_meta |}] |}.

Definition registry : Apps :=
  {| all_models := [Tag; Product; Product_tags] |}.

Definition Product_tags_relation : M2MInfo :=
  {| m_model := "Product"; m_app_name := "catalog"; m_field_name := "tags";
     m_related := Some ("Tag", "catalog") |}.

(** What discovery returns for Product in [registry]. *)
Definition discovered : Found :=
  {| fk_models := []; implicit_m2m := [Product_tags_relation]; through_models := [] |}.

End Catalog.

(** ** The plan, written out *)

(** The operations the function appends, as lists: what each part of the
    body contributes to [operations]. *)
Definition parent_add_ops (parent_model pk_field : string) : list Operation :=
  [AddField (lower parent_model) (fmt [pk_field; "_uuid"]) UUIDField_null;
   RunPython lambda_generate_uuid_for_model;
   AlterField (lower parent_model) (fmt [pk_field; "_uuid"]) UUIDField_default].

Definition through_swap_ops (through : ThroughInfo) : list Operation :=
  [AddField (lower (t_model through)) (fmt [t_field_name through; "_uuid"]) UUIDField_null;
   RunPython lambda_update_through;
   RemoveField (lower (t_model through)) (t_field_name through);
   RenameField (lower (t_model through)) (fmt [t_field_name through; "_uuid"])
     (t_field_name through)].

Definition child_swap_ops (child : ChildInfo) : list Operation :=
  [AddField (lower (c_model child)) (fmt [c_fk_field child; "_uuid"]) UUIDField_null;
   RunPython lambda_update_child;
   RemoveField (lower (c_model child)) (c_fk_field child);
   RenameField (lower (c_model child)) (fmt [c_fk_field child; "_uuid"])
     (c_fk_field child)].

Definition parent_swap_ops (parent_model pk_field : string) : list Operation :=
  [RemoveField (lower parent_model) pk_field;
   RenameField (lower parent_model) (fmt [pk_field; "_uuid"]) pk_field;
   AlterField (lower parent_model) pk_field UUIDField_primary_key].

Definition child_foreign_key_op (parent_model app_name : string) (child : ChildInfo)
  : Operation :=
  AlterField (lower (c_model child)) (c_fk_field child)
    (ForeignKey_cascade (fmt [app_name; "."; parent_model])).

Definition through_foreign_key_op (parent_model app_name : string)
    (through : ThroughInfo) : Operation :=
  AlterField (lower (t_model through)) (t_field_name through)
    (ForeignKey_cascade (fmt [app_name; "."; parent_model])).

Definition plan_operations (parent_model app_name pk_field : string)
    (throughs : list ThroughInfo) (children : list ChildInfo) : list Operation :=
  parent_add_ops parent_model pk_field ++
  flat_map through_swap_ops throughs ++
  flat_map child_swap_ops children ++
  parent_swap_ops parent_model pk_field ++
  map (child_foreign_key_op parent_model app_name) children ++
  map (through_foreign_key_op parent_model app_name) throughs.

Fixpoint last_opt {A : Type} (l : list A) : option A :=
  match l with
  | [] => None
  | [x] => Some x
  | _ :: rest => last_opt rest
  end.

(** The frame the call leaves behind when it returns: the loop variables
    hold what the last iteration of the last loop over each list assigned. *)
Definition final_frame (parent_model app_name pk_field : string)
    (throughs : list ThroughInfo) (children : list ChildInfo) : Frame :=
  {| local_parent_model := parent_model;
     local_app_name := app_name;
     local_pk_field := pk_field;
     local_operations := plan_operations parent_model app_name pk_field throughs children;
     local_through_model := option_map t_model (last_opt throughs);
     local_field_name := option_map t_field_name (last_opt throughs);
     local_through_app := option_map t_app_name (last_opt throughs);
     local_child_model := option_map c_model (last_opt children);
     local_fk_field := option_map c_fk_field (last_opt children);
     local_child_app :=
       option_map (fun c => get_default (c_app_name c) app_name) (last_opt children) |}.

(** The kind of a step of a plan, and the entity it acts on. *)
Inductive StepKind : Type :=
| AddFieldStep (entity : string)
| PopulateStep
| AlterStep (entity : string)
| RemoveStep (entity : string)
| RenameStep (entity : string)
| SetPKStep (entity : string)
| SetFKStep (entity : string).

Definition step_kind (op : Operation) : StepKind :=
  match op with
  | AddField model_name _ _ => AddFieldStep model_name
  | RunPython _ => PopulateStep
  | AlterField model_name _ UUIDField_primary_key => SetPKStep model_name
  | AlterField model_name _ (ForeignKey_cascade _) => SetFKStep model_name
  | AlterField model_name _ _ => AlterStep model_name
  | RemoveField model_name _ => RemoveStep model_name
  | RenameField model_name _ _ => RenameStep model_name
  end.

Definition is_foreign_key_op (op : Operation) : bool :=
  match op with
  | AlterField _ _ (ForeignKey_cascade _) => true
  | _ => false
  end.

Definition is_remove_op (op : Operation) : bool :=
  match op with
  | RemoveField _ _ => true
  | _ => false
  end.

(** A string occurs inside another. *)
Definition occurs_in (piece whole : string) : Prop :=
  exists before after, whole = (before ++ piece ++ after)%string.

(** ** Vocabulary of the statements *)

(** The lists the sequencing part works on. *)
Definition children_of (child_models : option (list ChildInfo))
    (fk_related : list ChildInfo) : list ChildInfo :=
  match child_models with
  | None => fk_related
  | Some l => l
  end.

(** [extends a b]: every entry of the three lists of [a] is in [b]. *)
Definition extends (a b : Found) : Prop :=
  incl (fk_models a) (fk_models b) /\
  incl (implicit_m2m a) (implicit_m2m b) /\
  incl (through_models a) (through_models b).



(** The entries the loops of find_related_models append for a field. *)
Definition child_entry (model : Model) (field : Field) : ChildInfo :=
  {| c_model := object_name (label (_meta model));
     c_app_name := Some (app_label (label (_meta model)));
     c_fk_field := name field |}.

Definition through_entry (through_model : Options) (through_field : Field)
  : ThroughInfo :=
  {| t_model := object_name (label through_model);
     t_app_name := app_label (label through_model);
     t_field_name := name through_field |}.

(** ** generate_uuid_for_model *)

(** The loop of lines 11-13 over the rows of the model.  [uuid4 n] is the
    value the n-th call of [uuid.uuid4()] returns, [calls] the number of
    calls made so far; the result is the table as the function leaves it
    and the number of calls made. *)
Fixpoint generate_uuid_for_model (uuid4 : nat -> N) (calls : nat)
    (rows : list ParentRow) : list ParentRow * nat :=
  match rows with
  | [] => ([], calls)
  | instance :: rest =>
      let saved := {| pk := pk instance; pk_uuid := Some (uuid4 calls) |} in
      let '(rest', calls') := generate_uuid_for_model uuid4 (S calls) rest in
      (saved :: rest', calls')
  end.

(** ** More vocabulary *)

(** [model_name] of a schema operation. *)
Definition op_model_name (op : Operation) : option string :=
  match op with
  | AddField model_name _ _ => Some model_name
  | RunPython _ => None
  | AlterField model_name _ _ => Some model_name
  | RemoveField model_name _ => Some model_name
  | RenameField model_name _ _ => Some model_name
  end.

Definition is_through_populate (op : Operation) : bool :=
  match op with
  | RunPython lambda_update_through => true
  | _ => false
  end.

Definition is_child_populate (op : Operation) : bool :=
  match op with
  | RunPython lambda_update_child => true
  | _ => false
  end.

(** [fk_entry_of apps parent e]: [e] describes a relation field that points
    at [parent], on a model that [get_models] returns. *)
Definition fk_entry_of (apps : Apps) (parent_model_obj : Model) (e : ChildInfo) : Prop :=
  exists model field,
    In model (get_models apps) /\
    In field (fields (_meta model)) /\
    is_relation field = true /\
    related_to (related_model field) parent_model_obj = true /\
    e = child_entry model field.

(** [through_entry_of apps parent t]: [t] describes a relation field that
    points at [parent], on the explicit join model of a many-to-many field
    of a registered model. *)
Definition through_entry_of (apps : Apps) (parent_model_obj : Model) (t : ThroughInfo)
  : Prop :=
  exists model field through_field,
    In model (all_models apps) /\
    In field (many_to_many model) /\
    auto_created (through field) = false /\
    In through_field (fields (through field)) /\
    is_relation through_field = true /\
    related_to (related_model through_field) parent_model_obj = true /\
    t = through_entry (through field) through_field.

(** The line of the error message for relation number [i] (line 258). *)
Definition relation_line (i : nat) (m2m : M2MInfo) : string :=
  fmt [str_of_nat (i + 1); ". Модель "; m_app_name m2m; "."; m_model m2m;
       ", поле "; m_field_name m2m; nl].

(** What update_foreign_keys does to one row, when primary keys are
    unique: [after] is [before] with the surrogate of the parent the row
    points at, with an empty surrogate when there is no such parent and
    the field is nullable, and [before] itself otherwise. *)
Definition row_updated (ParentModel : list ParentRow) (fk_null : bool)
    (before after : ChildRow) : Prop :=
  fk_id after = fk_id before /\
  (forall parent, In parent ParentModel -> fk_id before = Some (pk parent) ->
     fk_uuid after = pk_uuid parent) /\
  ((forall parent, In parent ParentModel -> fk_id before <> Some (pk parent)) ->
   fk_uuid after = if fk_null then None else fk_uuid before).

(** Every entry of the through list is a [through_entry_of]. *)
Definition through_list_sound (apps : Apps) (parent_model_obj : Model) (a : Found)
  : Prop :=
  forall t, In t (through_models a) -> through_entry_of apps parent_model_obj t.

(** One iteration of the loop of generate_through_model_code on the two
    dictionaries (lines 221-222). *)
Definition report_step (acc : Dict * Dict) (m2m : M2MInfo) : Dict * Dict :=
  let '(through_models_code, migration_hints) := acc in
  (dict_set through_models_code (through_model_name m2m) (model_code m2m),
   dict_set migration_hints (through_model_name m2m) (migration_hint m2m)).

(** The filter of [ParentModel.objects.get]. *)
Definition pk_is (value : option Z) (p : ParentRow) : bool :=
  match value with
  | Some v => Z.eqb (pk p) v
  | None => false
  end.



(** ** Two implicit relations between one pair of models *)

Module Library.

Definition Author_ref : ModelRef := {| app_label := "library"; object_name := "Author" |}.
Definition Book_ref : ModelRef := {| app_label := "library"; object_name := "Book" |}.

(** The join models Django creates for Book.authors and Book.editors. *)
Definition Book_authors_meta : Options :=
  {| label := {| app_label := "library"; object_name := "Book_authors" |};
     auto_created := true;
     fields := [Shop.AutoField "id"; Shop.ForeignKey "book" Book_ref false;
                Shop.ForeignKey "author" Author_ref false] |}.

Definition Book_editors_meta : Options :=
  {| label := {| app_label := "library"; object_name := "Book_editors" |};
     auto_created := true;
     fields := [Shop.AutoField "id"; Shop.ForeignKey "book" Book_ref false;
                Shop.ForeignKey "author" Author_ref false] |}.

Definition Author : Model :=
  {| _meta := {| label := Author_ref; auto_created := false;
                 fields := [Shop.AutoField "id"] |};
     many_to_many := [] |}.

(** class Book: authors = ManyToManyField(Author),
    editors = ManyToManyField(Author) *)
Definition Book : Model :=
  {| _meta := {| label := Book_ref; auto_created := false;
                 fields := [Shop.AutoField "id"] |};
     many_to_many :=
       [{| m2m_name := "authors"; m2m_related_model := Author_ref;
           through := Book_authors_meta |};
        {| m2m_name := "editors"; m2m_related_model := Author_ref;
           through := Book_editors_meta |}] |}.

Definition registry : Apps :=
  {| all_models :=
       [Author; Book;
        {| _meta := Book_authors_meta; many_to_many := [] |};
        {| _meta := Book_editors_meta; many_to_many := [] |}] |}.

Definition Book_authors_relation : M2MInfo :=
  {| m_model := "Book"; m_app_name := "library"; m_field_name := "authors";
     m_related := None |}.

Definition Book_editors_relation : M2MInfo :=
  {| m_model := "Book"; m_app_name := "library"; m_field_name := "editors";
     m_related := None |}.

(** What discovery returns for Author in [registry]. *)
Definition discovered : Found :=
  {| fk_models := [];
     implicit_m2m := [Book_authors_relation; Book_editors_relation];
     through_models := [] |}.

End Library.

(** ** Loops over a frame *)

Lemma last_opt_cons {A : Type} (x : A) (l : list A) :
  last_opt (x :: l) = Some (match last_opt l with Some y => y | None => x end).
Proof.
  revert x. induction l as [|y rest IH]; intro x.
  - reflexivity.
  - change (last_opt (x :: y :: rest)) with (last_opt (y :: rest)).
    rewrite (IH y). destruct (last_opt rest); reflexivity.
Qed.

Ltac frame_projections :=
  cbn [local_parent_model local_app_name local_pk_field local_operations
       local_through_model local_field_name local_through_app
       local_child_model local_fk_field local_child_app].

Ltac last_iteration rest :=
  rewrite last_opt_cons; destruct (last_opt rest); reflexivity.

Section Loops.

Variable app_name : string.
Variable parent_model : string.

Lemma through_swap_loop (l : list ThroughInfo) (fr : Frame) :
  for_each l (through_swap app_name) fr =
  (Ok tt,
   {| local_parent_model := local_parent_model fr;
      local_app_name := local_app_name fr;
      local_pk_field := local_pk_field fr;
      local_operations := local_operations fr ++ flat_map through_swap_ops l;
      local_through_model :=
        match last_opt l with Some t => Some (t_model t) | None => local_through_model fr end;
      local_field_name :=
        match last_opt l with Some t => Some (t_field_name t) | None => local_field_name fr end;
      local_through_app :=
        match last_opt l with Some t => Some (t_app_name t) | None => local_through_app fr end;
      local_child_model := local_child_model fr;
      local_fk_field := local_fk_field fr;
      local_child_app := local_child_app fr |}).
Proof.
  revert fr. induction l as [|t rest IH]; intro fr.
  - simpl. rewrite app_nil_r. destruct fr; reflexivity.
  - cbn [for_each]. unfold bind at 1. unfold through_swap at 1.
    cbn [bind assign_through operations_append get_default].
    rewrite IH. cbn [local_parent_model local_app_name local_pk_field
      local_operations local_through_model local_field_name local_through_app
      local_child_model local_fk_field local_child_app].
    f_equal. f_equal.
    + cbn [flat_map through_swap_ops]. rewrite <- !app_assoc. reflexivity.
    + last_iteration rest.
    + last_iteration rest.
    + last_iteration rest.
Qed.

Lemma child_swap_loop (l : list ChildInfo) (fr : Frame) :
  for_each l (child_swap app_name) fr =
  (Ok tt,
   {| local_parent_model := local_parent_model fr;
      local_app_name := local_app_name fr;
      local_pk_field := local_pk_field fr;
      local_operations := local_operations fr ++ flat_map child_swap_ops l;
      local_through_model := local_through_model fr;
      local_field_name := local_field_name fr;
      local_through_app := local_through_app fr;
      local_child_model :=
        match last_opt l with Some c => Some (c_model c) | None => local_child_model fr end;
      local_fk_field :=
        match last_opt l with Some c => Some (c_fk_field c) | None => local_fk_field fr end;
      local_child_app :=
        match last_opt l with
        | Some c => Some (get_default (c_app_name c) app_name)
        | None => local_child_app fr
        end |}).
Proof.
  revert fr. induction l as [|c rest IH]; intro fr.
  - simpl. rewrite app_nil_r. destruct fr; reflexivity.
  - cbn [for_each]. unfold bind at 1. unfold child_swap at 1.
    cbn [bind assign_child operations_append].
    rewrite IH. frame_projections.
    f_equal. f_equal.
    + cbn [flat_map child_swap_ops]. rewrite <- !app_assoc. reflexivity.
    + last_iteration rest.
    + last_iteration rest.
    + last_iteration rest.
Qed.

Lemma child_set_foreign_key_loop (l : list ChildInfo) (fr : Frame) :
  for_each l (child_set_foreign_key parent_model app_name) fr =
  (Ok tt,
   {| local_parent_model := local_parent_model fr;
      local_app_name := local_app_name fr;
      local_pk_field := local_pk_field fr;
      local_operations :=
        local_operations fr ++ map (child_foreign_key_op parent_model app_name) l;
      local_through_model := local_through_model fr;
      local_field_name := local_field_name fr;
      local_through_app := local_through_app fr;
      local_child_model :=
        match last_opt l with Some c => Some (c_model c) | None => local_child_model fr end;
      local_fk_field :=
        match last_opt l with Some c => Some (c_fk_field c) | None => local_fk_field fr end;
      local_child_app :=
        match last_opt l with
        | Some c => Some (get_default (c_app_name c) app_name)
        | None => local_child_app fr
        end |}).
Proof.
  revert fr. induction l as [|c rest IH]; intro fr.
  - simpl. rewrite app_nil_r. destruct fr; reflexivity.
  - cbn [for_each]. unfold bind at 1. unfold child_set_foreign_key at 1.
    cbn [bind assign_child operations_append].
    rewrite IH. frame_projections.
    f_equal. f_equal.
    + cbn [map]. rewrite <- !app_assoc. reflexivity.
    + last_iteration rest.
    + last_iteration rest.
    + last_iteration rest.
Qed.

Lemma through_set_foreign_key_loop (l : list ThroughInfo) (fr : Frame) :
  for_each l (through_set_foreign_key parent_model app_name) fr =
  (Ok tt,
   {| local_parent_model := local_parent_model fr;
      local_app_name := local_app_name fr;
      local_pk_field := local_pk_field fr;
      local_operations :=
        local_operations fr ++ map (through_foreign_key_op parent_model app_name) l;
      local_through_model :=
        match last_opt l with Some t => Some (t_model t) | None => local_through_model fr end;
      local_field_name :=
        match last_opt l with Some t => Some (t_field_name t) | None => local_field_name fr end;
      local_through_app :=
        match last_opt l with Some t => Some (t_app_name t) | None => local_through_app fr end;
      local_child_model := local_child_model fr;
      local_fk_field := local_fk_field fr;
      local_child_app := local_child_app fr |}).
Proof.
  revert fr. induction l as [|t rest IH]; intro fr.
  - simpl. rewrite app_nil_r. destruct fr; reflexivity.
  - cbn [for_each]. unfold bind at 1. unfold through_set_foreign_key at 1.
    cbn [bind assign_through operations_append get_default].
    rewrite IH. frame_projections.
    f_equal. f_equal.
    + cbn [map]. rewrite <- !app_assoc. reflexivity.
    + last_iteration rest.
    + last_iteration rest.
    + last_iteration rest.
Qed.

End Loops.

(** ** What a call of create_uuid_migration does *)

(** The sequencing part of the body (from line 288 on), once the lists it
    works on are known. *)
Lemma sequencing_run (parent_model app_name pk_field : string)
    (dependencies : list (string * string))
    (throughs : list ThroughInfo) (children : list ChildInfo) :
  (operations_append
     (AddField (lower parent_model) (fmt [pk_field; "_uuid"]) UUIDField_null) ;;
   operations_append (RunPython lambda_generate_uuid_for_model) ;;
   operations_append
     (AlterField (lower parent_model) (fmt [pk_field; "_uuid"]) UUIDField_default) ;;
   for_each throughs (through_swap app_name) ;;
   for_each children (child_swap app_name) ;;
   operations_append (RemoveField (lower parent_model) pk_field) ;;
   operations_append
     (RenameField (lower parent_model) (fmt [pk_field; "_uuid"]) pk_field) ;;
   operations_append
     (AlterField (lower parent_model) pk_field UUIDField_primary_key) ;;
   for_each children (child_set_foreign_key parent_model app_name) ;;
   for_each throughs (through_set_foreign_key parent_model app_name) ;;
   fr <- get_frame ;;
   ret {| dependencies := dependencies; operations := local_operations fr |})
    (initial_frame parent_model app_name pk_field) =
  (Ok {| dependencies := dependencies;
         operations := plan_operations parent_model app_name pk_field throughs children |},
   final_frame parent_model app_name pk_field throughs children).
Proof.
  unfold bind.
  cbn [operations_append initial_frame]. frame_projections.
  rewrite through_swap_loop. frame_projections.
  rewrite child_swap_loop. frame_projections.
  cbn [operations_append]. frame_projections.
  rewrite child_set_foreign_key_loop. frame_projections.
  rewrite through_set_foreign_key_loop. frame_projections.
  cbn [get_frame ret]. frame_projections.
  unfold final_frame, plan_operations, parent_add_ops, parent_swap_ops.
  rewrite <- !app_assoc. cbn [app option_map].
  destruct (last_opt throughs), (last_opt children); reflexivity.
Qed.

Lemma guarded_loop {A : Type} (l : list A) (body : A -> M unit) :
  (if truthy l then for_each l body else ret tt) = for_each l body.
Proof. destruct l; reflexivity. Qed.

(** With auto-detection, when discovery finds no implicit relation. *)
Lemma create_uuid_migration_detected (django_apps : Apps)
    (parent_model app_name : string) (dependencies : list (string * string))
    (child_models : option (list ChildInfo)) (pk_field : string) (found : Found) :
  find_related_models app_name parent_model django_apps = Ok found ->
  implicit_m2m found = [] ->
  create_uuid_migration django_apps parent_model app_name dependencies
    child_models pk_field true =
  (Ok {| dependencies := dependencies;
         operations :=
           plan_operations parent_model app_name pk_field (through_models found)
             (children_of child_models (fk_models found)) |},
   final_frame parent_model app_name pk_field (through_models found)
     (children_of child_models (fk_models found))).
Proof.
  intros Hfound Himplicit.
  unfold create_uuid_migration, create_uuid_migration_body.
  rewrite Hfound.
  rewrite <- (sequencing_run parent_model app_name pk_field dependencies
                (through_models found) (children_of child_models (fk_models found))).
  cbv beta iota delta [bind lift]. rewrite Himplicit.
  cbn [truthy ret snd fst bound]. rewrite !guarded_loop.
  destruct child_models; reflexivity.
Qed.

(** With auto-detection, when discovery finds an implicit relation. *)
Lemma create_uuid_migration_blocked (django_apps : Apps)
    (parent_model app_name : string) (dependencies : list (string * string))
    (child_models : option (list ChildInfo)) (pk_field : string) (found : Found) :
  find_related_models app_name parent_model django_apps = Ok found ->
  implicit_m2m found <> [] ->
  create_uuid_migration django_apps parent_model app_name dependencies
    child_models pk_field true =
  (Raise (ValueError (error_message parent_model (implicit_m2m found))),
   initial_frame parent_model app_name pk_field).
Proof.
  intros Hfound Himplicit.
  unfold create_uuid_migration, create_uuid_migration_body.
  rewrite Hfound. cbv beta iota delta [bind lift].
  destruct (implicit_m2m found) as [|m2m rest] eqn:E; [congruence|].
  reflexivity.
Qed.

(** With auto-detection, when the parent model is not in the registry. *)
Lemma create_uuid_migration_unresolved (django_apps : Apps)
    (parent_model app_name : string) (dependencies : list (string * string))
    (child_models : option (list ChildInfo)) (pk_field : string) (e : exn) :
  find_related_models app_name parent_model django_apps = Raise e ->
  create_uuid_migration django_apps parent_model app_name dependencies
    child_models pk_field true =
  (Raise e, initial_frame parent_model app_name pk_field).
Proof.
  intros Hfound.
  unfold create_uuid_migration, create_uuid_migration_body.
  rewrite Hfound. reflexivity.
Qed.

(** Without auto-detection. *)
Lemma create_uuid_migration_manual (django_apps : Apps)
    (parent_model app_name : string) (dependencies : list (string * string))
    (child_models : option (list ChildInfo)) (pk_field : string) :
  create_uuid_migration django_apps parent_model app_name dependencies
    child_models pk_field false =
  (Ok {| dependencies := dependencies;
         operations :=
           plan_operations parent_model app_name pk_field []
             (children_of child_models []) |},
   final_frame parent_model app_name pk_field [] (children_of child_models [])).
Proof.
  unfold create_uuid_migration, create_uuid_migration_body.
  rewrite <- (sequencing_run parent_model app_name pk_field dependencies
                [] (children_of child_models [])).
  destruct child_models; reflexivity.
Qed.

(** ** Strings and f-strings *)

Lemma append_assoc (a b c : string) : ((a ++ b) ++ c = a ++ (b ++ c))%string.
Proof. induction a as [|x a IH]; simpl; [reflexivity | now rewrite IH]. Qed.

Lemma append_empty_r (a : string) : (a ++ "" = a)%string.
Proof. induction a as [|x a IH]; simpl; [reflexivity | now rewrite IH]. Qed.

Lemma fmt_cons (piece : string) (pieces : list string) :
  fmt (piece :: pieces) = (piece ++ fmt pieces)%string.
Proof.
  unfold fmt. destruct pieces as [|q rest]; simpl.
  - now rewrite append_empty_r.
  - reflexivity.
Qed.

Lemma fmt_app (front back : list string) :
  fmt (front ++ back) = (fmt front ++ fmt back)%string.
Proof.
  induction front as [|p front IH].
  - reflexivity.
  - change ((p :: front) ++ back) with (p :: (front ++ back)).
    now rewrite !fmt_cons, IH, append_assoc.
Qed.

Lemma occurs_in_append_r (piece whole tail : string) :
  occurs_in piece whole -> occurs_in piece (whole ++ tail)%string.
Proof.
  intros (before & after & ->). exists before, (after ++ tail)%string.
  now rewrite !append_assoc.
Qed.

Lemma occurs_in_append_l (piece head whole : string) :
  occurs_in piece whole -> occurs_in piece (head ++ whole)%string.
Proof.
  intros (before & after & ->). exists (head ++ before)%string, after.
  now rewrite !append_assoc.
Qed.

Lemma occurs_in_fmt (piece : string) (front back : list string) :
  occurs_in piece (fmt (front ++ [piece] ++ back)).
Proof.
  exists (fmt front), (fmt back). rewrite !fmt_app. reflexivity.
Qed.

(** ** Loops that only append *)

Section FoldLeft.

Context {A B : Type} (f : A -> B -> A).

Lemma fold_left_invariant (P : A -> Prop) (l : list B) (a : A) :
  P a -> (forall a b, In b l -> P a -> P (f a b)) -> P (fold_left f l a).
Proof.
  revert a. induction l as [|x l IH]; simpl; intros a Ha Hstep.
  - exact Ha.
  - apply IH; auto.
Qed.

Lemma fold_left_reaches (Q : A -> Prop) (l : list B) (a : A) (x : B) :
  In x l ->
  (forall a, Q (f a x)) ->
  (forall a b, Q a -> Q (f a b)) ->
  Q (fold_left f l a).
Proof.
  revert a. induction l as [|y l IH]; simpl; intros a Hin Hx Hkeep.
  - contradiction.
  - destruct Hin as [->|Hin].
    + apply fold_left_invariant; auto.
    + apply IH; auto.
Qed.

End FoldLeft.

Lemma extends_refl (a : Found) : extends a a.
Proof. repeat split; apply incl_refl. Qed.

Lemma extends_trans (a b c : Found) : extends a b -> extends b c -> extends a c.
Proof.
  intros (H1 & H2 & H3) (K1 & K2 & K3).
  repeat split; eapply incl_tran; eassumption.
Qed.

Lemma extends_append_fk (a : Found) (e : ChildInfo) : extends a (append_fk a e).
Proof. repeat split; simpl; try apply incl_refl. apply incl_appl, incl_refl. Qed.

Lemma extends_append_implicit (a : Found) (e : M2MInfo) :
  extends a (append_implicit a e).
Proof. repeat split; simpl; try apply incl_refl. apply incl_appl, incl_refl. Qed.

Lemma extends_append_through (a : Found) (e : ThroughInfo) :
  extends a (append_through a e).
Proof. repeat split; simpl; try apply incl_refl. apply incl_appl, incl_refl. Qed.

Create HintDb discovery.

#[local] Hint Resolve extends_refl extends_append_fk extends_append_implicit
  extends_append_through : discovery.

Lemma fold_left_extends {B : Type} (f : Found -> B -> Found) (l : list B) (a : Found) :
  (forall a b, extends a (f a b)) -> extends a (fold_left f l a).
Proof.
  intro Hstep.
  apply (fold_left_invariant f (fun acc => extends a acc)).
  - apply extends_refl.
  - intros acc b _ Hacc. eapply extends_trans; [exact Hacc | apply Hstep].
Qed.

Ltac extends_step :=
  repeat match goal with
         | |- extends _ (if ?c then _ else _) => destruct c
         end; auto with discovery.

Lemma scan_fields_extends (parent_model_obj model : Model) (acc : Found) :
  extends acc (scan_fields parent_model_obj model acc).
Proof. apply fold_left_extends. intros a b. extends_step. Qed.

Lemma scan_through_fields_extends (parent_model_obj : Model) (through_model : Options)
    (acc : Found) :
  extends acc (scan_through_fields parent_model_obj through_model acc).
Proof. apply fold_left_extends. intros a b. extends_step. Qed.

Lemma scan_other_fields_extends (parent_model_obj : Model) (through_model : Options)
    (through_field : Field) (acc : Found) :
  extends acc (scan_other_fields parent_model_obj through_model through_field acc).
Proof. apply fold_left_extends. intros a b. extends_step. Qed.

#[local] Hint Resolve scan_fields_extends scan_through_fields_extends
  scan_other_fields_extends : discovery.

Lemma scan_many_to_many_extends (parent_model_obj model : Model) (acc : Found) :
  extends acc (scan_many_to_many parent_model_obj model acc).
Proof. apply fold_left_extends. intros a b. extends_step. Qed.

Lemma scan_parent_many_to_many_extends (app_name parent_model : string)
    (parent_model_obj : Model) (acc : Found) :
  extends acc (scan_parent_many_to_many app_name parent_model parent_model_obj acc).
Proof.
  apply fold_left_extends. intros a b. extends_step.
  apply fold_left_extends. intros a' b'. extends_step.
Qed.

#[local] Hint Resolve scan_many_to_many_extends scan_parent_many_to_many_extends
  : discovery.

(** What find_related_models computes once the parent model is resolved. *)
Lemma find_related_models_resolved (app_name parent_model : string)
    (apps_registry : Apps) (found : Found) :
  find_related_models app_name parent_model apps_registry = Ok found ->
  exists parent_model_obj,
    get_model apps_registry app_name parent_model = Ok parent_model_obj /\
    found =
    scan_parent_many_to_many app_name parent_model parent_model_obj
      (fold_left
         (fun acc model =>
            scan_many_to_many parent_model_obj model
              (scan_fields parent_model_obj model acc))
         (get_models apps_registry)
         {| fk_models := []; implicit_m2m := []; through_models := [] |}).
Proof.
  unfold find_related_models.
  destruct (get_model apps_registry app_name parent_model) as [p|e]; [|discriminate].
  intro H. injection H as <-. exists p. split; reflexivity.
Qed.

Lemma get_model_resolved (apps : Apps) (app_name model_name : string) (m : Model) :
  get_model apps app_name model_name = Ok m ->
  In m (all_models apps) /\
  app_label (label (_meta m)) = app_name /\
  lower (object_name (label (_meta m))) = lower model_name.
Proof.
  unfold get_model.
  destruct (find _ (all_models apps)) as [m'|] eqn:E; [|discriminate].
  intro H. injection H as <-.
  apply find_some in E. destruct E as [Hin Hb].
  apply andb_true_iff in Hb. destruct Hb as [Ha Hn].
  apply String.eqb_eq in Ha, Hn. auto.
Qed.

(** ** Where the implicit relations come from *)










(** ** A join model is also a model with a foreign key *)

Lemma extends_fk (a b : Found) (e : ChildInfo) :
  extends a b -> In e (fk_models a) -> In e (fk_models b).
Proof. intros (H & _ & _). apply H. Qed.

Lemma extends_through (a b : Found) (e : ThroughInfo) :
  extends a b -> In e (through_models a) -> In e (through_models b).
Proof. intros (_ & _ & H). apply H. Qed.

Lemma scan_fields_lists (parent_model_obj model : Model) (field : Field)
    (acc : Found) :
  In field (fields (_meta model)) ->
  is_relation field = true ->
  related_to (related_model field) parent_model_obj = true ->
  In (child_entry model field) (fk_models (scan_fields parent_model_obj model acc)).
Proof.
  intros Hin Hrel Hto. unfold scan_fields.
  apply (fold_left_reaches _ (fun a => In (child_entry model field) (fk_models a))
           _ _ field Hin).
  - intro a. rewrite Hrel, Hto. simpl. apply in_or_app. right. left. reflexivity.
  - intros a b Ha.
    destruct (is_relation b && related_to (related_model b) parent_model_obj);
      [|exact Ha].
    eapply extends_fk; [apply extends_append_fk | exact Ha].
Qed.

Lemma scan_through_fields_lists (parent_model_obj : Model) (through_model : Options)
    (through_field : Field) (acc : Found) :
  In through_field (fields through_model) ->
  is_relation through_field = true ->
  related_to (related_model through_field) parent_model_obj = true ->
  In (through_entry through_model through_field)
     (through_models (scan_through_fields parent_model_obj through_model acc)).
Proof.
  intros Hin Hrel Hto. unfold scan_through_fields.
  apply (fold_left_reaches _
           (fun a => In (through_entry through_model through_field) (through_models a))
           _ _ through_field Hin).
  - intro a. rewrite Hrel, Hto. simpl. apply in_or_app. right. left. reflexivity.
  - intros a b Ha.
    destruct (is_relation b && related_to (related_model b) parent_model_obj);
      [|exact Ha].
    eapply extends_through; [apply extends_append_through | exact Ha].
Qed.

Lemma scan_many_to_many_lists (parent_model_obj model : Model)
    (field : ManyToManyField) (through_field : Field) (acc : Found) :
  In field (many_to_many model) ->
  related_to (Some (m2m_related_model field)) parent_model_obj = true ->
  auto_created (through field) = false ->
  In through_field (fields (through field)) ->
  is_relation through_field = true ->
  related_to (related_model through_field) parent_model_obj = true ->
  In (through_entry (through field) through_field)
     (through_models (scan_many_to_many parent_model_obj model acc)).
Proof.
  intros Hin Hto Hauto Hfield Hrel Hback. unfold scan_many_to_many.
  apply (fold_left_reaches _
           (fun a => In (through_entry (through field) through_field) (through_models a))
           _ _ field Hin).
  - intro a. rewrite Hto, Hauto. now apply scan_through_fields_lists.
  - intros a b Ha.
    eapply extends_through; [|exact Ha]. extends_step.
Qed.

(** Every relation field that points at the parent model is listed in
    [fk_models], whatever the model that holds it. *)
Lemma foreign_key_listed (app_name parent_model : string) (apps_registry : Apps)
    (found : Found) (parent_model_obj model : Model) (field : Field) :
  find_related_models app_name parent_model apps_registry = Ok found ->
  get_model apps_registry app_name parent_model = Ok parent_model_obj ->
  In model (get_models apps_registry) ->
  In field (fields (_meta model)) ->
  is_relation field = true ->
  related_to (related_model field) parent_model_obj = true ->
  In (child_entry model field) (fk_models found).
Proof.
  intros Hfound Hget Hmodel Hfield Hrel Hto.
  apply find_related_models_resolved in Hfound.
  destruct Hfound as (p & Hget' & ->).
  rewrite Hget in Hget'. injection Hget' as <-.
  eapply extends_fk; [apply scan_parent_many_to_many_extends|].
  apply (fold_left_reaches _ (fun a => In (child_entry model field) (fk_models a))
           _ _ model Hmodel).
  - intro a. eapply extends_fk; [apply scan_many_to_many_extends|].
    now apply scan_fields_lists.
  - intros a b Ha. eapply extends_fk; [|exact Ha].
    eapply extends_trans; [apply scan_fields_extends | apply scan_many_to_many_extends].
Qed.

(** The field of an explicit join model that points at the parent model is
    listed in [through_models] when a many-to-many field of another model
    targets the parent through it. *)
Lemma through_field_listed (app_name parent_model : string) (apps_registry : Apps)
    (found : Found) (parent_model_obj model : Model)
    (field : ManyToManyField) (through_field : Field) :
  find_related_models app_name parent_model apps_registry = Ok found ->
  get_model apps_registry app_name parent_model = Ok parent_model_obj ->
  In model (get_models apps_registry) ->
  In field (many_to_many model) ->
  related_to (Some (m2m_related_model field)) parent_model_obj = true ->
  auto_created (through field) = false ->
  In through_field (fields (through field)) ->
  is_relation through_field = true ->
  related_to (related_model through_field) parent_model_obj = true ->
  In (through_entry (through field) through_field) (through_models found).
Proof.
  intros Hfound Hget Hmodel Hfield Hto Hauto Hin Hrel Hback.
  apply find_related_models_resolved in Hfound.
  destruct Hfound as (p & Hget' & ->).
  rewrite Hget in Hget'. injection Hget' as <-.
  eapply extends_through; [apply scan_parent_many_to_many_extends|].
  apply (fold_left_reaches _
           (fun a => In (through_entry (through field) through_field) (through_models a))
           _ _ model Hmodel).
  - intro a. now apply scan_many_to_many_lists.
  - intros a b Ha. eapply extends_through; [|exact Ha].
    eapply extends_trans; [apply scan_fields_extends | apply scan_many_to_many_extends].
Qed.

(** ** Properties of the plan *)

Lemma plan_operations_length (parent_model app_name pk_field : string)
    (throughs : list ThroughInfo) (children : list ChildInfo) :
  List.length (plan_operations parent_model app_name pk_field throughs children) =
  6 + 5 * (List.length throughs + List.length children).
Proof.
  unfold plan_operations.
  assert (Ht : List.length (flat_map through_swap_ops throughs) =
               4 * List.length throughs).
  { induction throughs as [|t l IH]; simpl in *; [reflexivity | lia]. }
  assert (Hc : List.length (flat_map child_swap_ops children) =
               4 * List.length children).
  { induction children as [|c l IH]; simpl in *; [reflexivity | lia]. }
  rewrite !length_app, !length_map, Ht, Hc. simpl. lia.
Qed.

(** Whenever the call returns, its operations are [plan_operations] of the
    lists it worked on. *)
Lemma create_uuid_migration_returns (django_apps : Apps)
    (parent_model app_name : string) (dependencies : list (string * string))
    (child_models : option (list ChildInfo)) (pk_field : string)
    (auto_detect_relations : bool) (migration : Migration) (frame : Frame) :
  create_uuid_migration django_apps parent_model app_name dependencies
    child_models pk_field auto_detect_relations = (Ok migration, frame) ->
  exists throughs children,
    operations migration =
      plan_operations parent_model app_name pk_field throughs children /\
    frame = final_frame parent_model app_name pk_field throughs children /\
    (auto_detect_relations = false ->
     throughs = [] /\ children = children_of child_models []) /\
    (auto_detect_relations = true ->
     exists found,
       find_related_models app_name parent_model django_apps = Ok found /\
       implicit_m2m found = [] /\
       throughs = through_models found /\
       children = children_of child_models (fk_models found)).
Proof.
  destruct auto_detect_relations.
  - destruct (find_related_models app_name parent_model django_apps) as [found|e] eqn:Hf.
    + destruct (implicit_m2m found) as [|m2m rest] eqn:Hi.
      * rewrite (create_uuid_migration_detected _ _ _ _ _ _ found Hf Hi).
        intro H. injection H as <- <-.
        exists (through_models found), (children_of child_models (fk_models found)).
        repeat split; try discriminate. intros _. exists found. auto.
      * rewrite (create_uuid_migration_blocked _ _ _ _ _ _ found Hf);
          [discriminate | rewrite Hi; discriminate].
    + rewrite (create_uuid_migration_unresolved _ _ _ _ _ _ e Hf). discriminate.
  - rewrite create_uuid_migration_manual. intro H. injection H as <- <-.
    exists [], (children_of child_models []).
    repeat split; discriminate.
Qed.

Lemma through_swap_ops_no_foreign_key (throughs : list ThroughInfo) (op : Operation) :
  In op (flat_map through_swap_ops throughs) -> is_foreign_key_op op = false.
Proof.
  intro H. apply in_flat_map in H. destruct H as (t & _ & Hop).
  simpl in Hop. intuition (subst; reflexivity).
Qed.

Lemma child_swap_ops_no_foreign_key (children : list ChildInfo) (op : Operation) :
  In op (flat_map child_swap_ops children) -> is_foreign_key_op op = false.
Proof.
  intro H. apply in_flat_map in H. destruct H as (c & _ & Hop).
  simpl in Hop. intuition (subst; reflexivity).
Qed.

Lemma through_remove_in_swap (throughs : list ThroughInfo) (t : ThroughInfo) :
  In t throughs ->
  In (RemoveField (lower (t_model t)) (t_field_name t))
     (flat_map through_swap_ops throughs).
Proof.
  intro H. apply in_flat_map. exists t. split; [exact H|]. simpl. auto.
Qed.

Lemma child_remove_in_swap (children : list ChildInfo) (c : ChildInfo) :
  In c children ->
  In (RemoveField (lower (c_model c)) (c_fk_field c))
     (flat_map child_swap_ops children).
Proof.
  intro H. apply in_flat_map. exists c. split; [exact H|]. simpl. auto.
Qed.

(** The shape every returned plan has: the steps before the parent's own
    swap hold every dependent's field removal and no foreign key; the steps
    after it are the dependents' foreign keys and nothing else. *)
Lemma plan_operations_around_swap (parent_model app_name pk_field : string)
    (throughs : list ThroughInfo) (children : list ChildInfo) :
  exists before after,
    plan_operations parent_model app_name pk_field throughs children =
      before ++ parent_swap_ops parent_model pk_field ++ after /\
    (forall op, In op before -> is_foreign_key_op op = false) /\
    (forall op, In op after -> is_foreign_key_op op = true /\ is_remove_op op = false) /\
    (forall t, In t throughs ->
       In (RemoveField (lower (t_model t)) (t_field_name t)) before /\
       In (through_foreign_key_op parent_model app_name t) after) /\
    (forall c, In c children ->
       In (RemoveField (lower (c_model c)) (c_fk_field c)) before /\
       In (child_foreign_key_op parent_model app_name c) after).
Proof.
  exists (parent_add_ops parent_model pk_field ++
          flat_map through_swap_ops throughs ++ flat_map child_swap_ops children),
         (map (child_foreign_key_op parent_model app_name) children ++
          map (through_foreign_key_op parent_model app_name) throughs).
  split; [|split; [|split; [|split]]].
  - unfold plan_operations. rewrite <- !app_assoc. reflexivity.
  - intros op H. apply in_app_or in H. destruct H as [H|H].
    + simpl in H. intuition (subst; reflexivity).
    + apply in_app_or in H. destruct H as [H|H].
      * eapply through_swap_ops_no_foreign_key; eassumption.
      * eapply child_swap_ops_no_foreign_key; eassumption.
  - intros op H. apply in_app_or in H.
    destruct H as [H|H]; apply in_map_iff in H; destruct H as (x & <- & _);
      split; reflexivity.
  - intros t Ht. split.
    + apply in_or_app. right. apply in_or_app. left.
      now apply through_remove_in_swap.
    + apply in_or_app. right. now apply in_map.
  - intros c Hc. split.
    + apply in_or_app. right. apply in_or_app. right.
      now apply child_remove_in_swap.
    + apply in_or_app. left. now apply in_map.
Qed.

(** ** The shop scenario, run *)

(** The sixteen steps for Order when the caller lists LineItem.order as the
    only child: the join model comes from discovery, the child from the
    caller. *)
Lemma shop_plan_with_supplied_child (dependencies : list (string * string)) :
  exists migration frame,
    create_uuid_migration Shop.registry "Order" "shop" dependencies
      (Some [Shop.LineItem_order]) "id" true = (Ok migration, frame) /\
    map step_kind (operations migration) =
      [AddFieldStep "order"; PopulateStep; AlterStep "order";
       AddFieldStep "ordertagthrough"; PopulateStep;
       RemoveStep "ordertagthrough"; RenameStep "ordertagthrough";
       AddFieldStep "lineitem"; PopulateStep;
       RemoveStep "lineitem"; RenameStep "lineitem";
       RemoveStep "order"; RenameStep "order"; SetPKStep "order";
       SetFKStep "lineitem"; SetFKStep "ordertagthrough"].
Proof.
  eexists. eexists. split.
  - apply (create_uuid_migration_detected _ _ _ _ _ _ Shop.discovered);
      vm_compute; reflexivity.
  - vm_compute. reflexivity.
Qed.

(** C1 (code at the scenario): for Order of the shop registry, with
    LineItem.order as foreign-key dependent and OrderTagThrough as explicit
    join model, create_uuid_migration with its default arguments returns a
    plan of 21 operations, not 16: discovery lists OrderTagThrough.order
    both as a foreign key and as a through field, so the join model is
    swapped twice and its foreign key is set twice. *)
Theorem C1_shop_plan_swaps_join_model_twice (dependencies : list (string * string)) :
  exists migration frame,
    create_uuid_migration Shop.registry "Order" "shop" dependencies
      None "id" true = (Ok migration, frame) /\
    List.length (operations migration) = 21 /\
    map step_kind (operations migration) =
      [AddFieldStep "order"; PopulateStep; AlterStep "order";
       AddFieldStep "ordertagthrough"; PopulateStep;
       RemoveStep "ordertagthrough"; RenameStep "ordertagthrough";
       AddFieldStep "lineitem"; PopulateStep;
       RemoveStep "lineitem"; RenameStep "lineitem";
       AddFieldStep "ordertagthrough"; PopulateStep;
       RemoveStep "ordertagthrough"; RenameStep "ordertagthrough";
       RemoveStep "order"; RenameStep "order"; SetPKStep "order";
       SetFKStep "lineitem"; SetFKStep "ordertagthrough";
       SetFKStep "ordertagthrough"].
Proof.
  eexists. eexists. split; [|split].
  - apply (create_uuid_migration_detected _ _ _ _ _ _ Shop.discovered);
      vm_compute; reflexivity.
  - vm_compute. reflexivity.
  - vm_compute. reflexivity.
Qed.

(** ** Discovery *)

(** With a third foreign key on the join model, the parent's own
    many-to-many loop lists the same through field once per other foreign
    key of the join model. *)
Lemma audited_through_field_listed_twice :
  exists found,
    find_related_models "shop" "Order" Audited.registry = Ok found /\
    through_models found = [Shop.OrderTagThrough_order; Shop.OrderTagThrough_order].
Proof. exists Audited.discovered. split; vm_compute; reflexivity. Qed.

(** C2 (code at the scenario): in the shop registry the relation
    OrderTagThrough.order is returned in two of the three lists of
    find_related_models, as a foreign key and as a through field. *)
Theorem C2_join_model_field_in_two_lists :
  exists found,
    find_related_models "shop" "Order" Shop.registry = Ok found /\
    In Shop.OrderTagThrough_order_fk (fk_models found) /\
    In Shop.OrderTagThrough_order (through_models found) /\
    c_model Shop.OrderTagThrough_order_fk = t_model Shop.OrderTagThrough_order /\
    c_app_name Shop.OrderTagThrough_order_fk =
      Some (t_app_name Shop.OrderTagThrough_order) /\
    c_fk_field Shop.OrderTagThrough_order_fk = t_field_name Shop.OrderTagThrough_order.
Proof.
  exists Shop.discovered. split; [vm_compute; reflexivity|].
  simpl. repeat split; auto.
Qed.

(** ** The implicit many-to-many check *)

Lemma report_entries_occur (label_text : string) (entries : Dict) (start : string)
    (key value : string) :
  In (key, value) entries ->
  occurs_in value
    (fold_left
       (fun message '(k, v) => (message ++ fmt [label_text; k; ":"; nl; v; nl])%string)
       entries start).
Proof.
  intro Hin.
  apply (fold_left_reaches _ (fun message => occurs_in value message)
           _ _ (key, value) Hin).
  - intro message. apply occurs_in_append_l.
    apply (occurs_in_fmt value [label_text; key; ":"; nl] [nl]).
  - intros message [k v] H. now apply occurs_in_append_r.
Qed.

(** The error message holds every generated model definition and every
    generated migration recipe. *)
Lemma error_message_carries_report (parent_model : string)
    (implicit_m2m : list M2MInfo) (key value : string) :
  In (key, value) (fst (generate_through_model_code implicit_m2m)) \/
  In (key, value) (snd (generate_through_model_code implicit_m2m)) ->
  occurs_in value (error_message parent_model implicit_m2m).
Proof.
  unfold error_message.
  destruct (generate_through_model_code implicit_m2m) as [codes hints].
  cbn [fst snd]. intros [Hin|Hin].
  - apply occurs_in_append_r.
    apply (fold_left_invariant _ (fun message => occurs_in value message)).
    + do 2 apply occurs_in_append_r.
      exact (report_entries_occur _ _ _ key value Hin).
    + intros message [k v] _ H. now apply occurs_in_append_r.
  - apply occurs_in_append_r.
    exact (report_entries_occur _ _ _ key value Hin).
Qed.

(** C3: when discovery finds an implicit many-to-many relation,
    create_uuid_migration with auto-detection raises ValueError; the message
    is the remediation report (it holds every generated join-model
    definition and migration recipe), no migration is returned, and the
    operations list is still empty when the exception is raised.  When
    discovery finds none, the call returns a migration. *)
Theorem C3_implicit_relations_block_the_plan (django_apps : Apps)
    (parent_model app_name : string) (dependencies : list (string * string))
    (child_models : option (list ChildInfo)) (pk_field : string) (found : Found) :
  find_related_models app_name parent_model django_apps = Ok found ->
  (implicit_m2m found <> [] ->
   exists message frame,
     create_uuid_migration django_apps parent_model app_name dependencies
       child_models pk_field true = (Raise (ValueError message), frame) /\
     message = error_message parent_model (implicit_m2m found) /\
     local_operations frame = [] /\
     (forall through_name code,
        In (through_name, code)
           (fst (generate_through_model_code (implicit_m2m found))) ->
        occurs_in code message) /\
     (forall through_name hint,
        In (through_name, hint)
           (snd (generate_through_model_code (implicit_m2m found))) ->
        occurs_in hint message)) /\
  (implicit_m2m found = [] ->
   exists migration frame,
     create_uuid_migration django_apps parent_model app_name dependencies
       child_models pk_field true = (Ok migration, frame)).
Proof.
  intro Hfound. split; intro Himplicit.
  - exists (error_message parent_model (implicit_m2m found)),
           (initial_frame parent_model app_name pk_field).
    split; [|split; [|split; [|split]]].
    + now apply create_uuid_migration_blocked.
    + reflexivity.
    + reflexivity.
    + intros k v H. apply (error_message_carries_report _ _ k v). now left.
    + intros k v H. apply (error_message_carries_report _ _ k v). now right.
  - eexists. eexists.
    apply (create_uuid_migration_detected _ _ _ _ _ _ found); assumption.
Qed.

Lemma C3_witness :
  (exists message frame,
     create_uuid_migration Catalog.registry "Product" "catalog" [] None "id" true =
       (Raise (ValueError message), frame) /\
     local_operations frame = []) /\
  (exists migration frame,
     create_uuid_migration Shop.registry "Order" "shop" [] None "id" true =
       (Ok migration, frame)).
Proof.
  split.
  - assert (Hfound : find_related_models "catalog" "Product" Catalog.registry =
                       Ok Catalog.discovered) by (vm_compute; reflexivity).
    destruct (C3_implicit_relations_block_the_plan Catalog.registry "Product"
                "catalog" [] None "id" Catalog.discovered Hfound) as [Hblocked _].
    destruct Hblocked as (message & frame & Hrun & _ & Hops & _); [discriminate|].
    exists message, frame. split; assumption.
  - assert (Hfound : find_related_models "shop" "Order" Shop.registry =
                       Ok Shop.discovered) by (vm_compute; reflexivity).
    destruct (C3_implicit_relations_block_the_plan Shop.registry "Order"
                "shop" [] None "id" Shop.discovered Hfound) as [_ Hok].
    exact (Hok eq_refl).
Defined.

(** ** Ordering of the plan *)

(** C4: every plan create_uuid_migration returns splits into the steps
    before the parent's own swap, the swap (remove the old primary key,
    rename the surrogate, set it as primary key) and the steps after it.
    For every dependent the plan handles (the through fields found by
    discovery; the caller's child list, or the discovered foreign keys when
    the caller gives none) the removal of its old field is among the steps
    before the swap and its foreign-key step is among the steps after it;
    no step before the swap sets a foreign key and no step after it removes
    a field. *)
Theorem C4_dependents_ordered_around_primary_key_swap (django_apps : Apps)
    (parent_model app_name : string) (dependencies : list (string * string))
    (child_models : option (list ChildInfo)) (pk_field : string)
    (auto_detect_relations : bool) (migration : Migration) (frame : Frame) :
  create_uuid_migration django_apps parent_model app_name dependencies
    child_models pk_field auto_detect_relations = (Ok migration, frame) ->
  exists before after,
    operations migration =
      before ++
      [RemoveField (lower parent_model) pk_field;
       RenameField (lower parent_model) (fmt [pk_field; "_uuid"]) pk_field;
       AlterField (lower parent_model) pk_field UUIDField_primary_key] ++
      after /\
    (forall op, In op before -> is_foreign_key_op op = false) /\
    (forall op, In op after -> is_foreign_key_op op = true /\ is_remove_op op = false) /\
    (auto_detect_relations = true ->
     forall found,
       find_related_models app_name parent_model django_apps = Ok found ->
       (forall through, In through (through_models found) ->
          In (RemoveField (lower (t_model through)) (t_field_name through)) before /\
          In (AlterField (lower (t_model through)) (t_field_name through)
                (ForeignKey_cascade (fmt [app_name; "."; parent_model]))) after) /\
       (forall child, In child (children_of child_models (fk_models found)) ->
          In (RemoveField (lower (c_model child)) (c_fk_field child)) before /\
          In (AlterField (lower (c_model child)) (c_fk_field child)
                (ForeignKey_cascade (fmt [app_name; "."; parent_model]))) after)) /\
    (auto_detect_relations = false ->
     forall child, In child (children_of child_models []) ->
       In (RemoveField (lower (c_model child)) (c_fk_field child)) before /\
       In (AlterField (lower (c_model child)) (c_fk_field child)
             (ForeignKey_cascade (fmt [app_name; "."; parent_model]))) after).
Proof.
  intro Hrun.
  apply create_uuid_migration_returns in Hrun.
  destruct Hrun as (throughs & children & Hops & _ & Hmanual & Hauto).
  destruct (plan_operations_around_swap parent_model app_name pk_field throughs children)
    as (before & after & Hsplit & Hbefore & Hafter & Hthroughs & Hchildren).
  exists before, after.
  split; [|split; [|split; [|split]]].
  - rewrite Hops. exact Hsplit.
  - exact Hbefore.
  - exact Hafter.
  - intros Htrue found Hfound.
    destruct (Hauto Htrue) as (found' & Hfound' & _ & -> & ->).
    rewrite Hfound in Hfound'. injection Hfound' as <-.
    split; [exact Hthroughs | exact Hchildren].
  - intros Hfalse. destruct (Hmanual Hfalse) as [_ ->]. exact Hchildren.
Qed.

Lemma C4_witness :
  exists before after,
    plan_operations "Order" "shop" "id" [Shop.OrderTagThrough_order]
      [Shop.LineItem_order] =
      before ++
      [RemoveField "order" "id"; RenameField "order" "id_uuid" "id";
       AlterField "order" "id" UUIDField_primary_key] ++
      after /\
    In (RemoveField "lineitem" "order") before /\
    In (AlterField "lineitem" "order" (ForeignKey_cascade "shop.Order")) after.
Proof.
  assert (Hfound : find_related_models "shop" "Order" Shop.registry =
                     Ok Shop.discovered) by (vm_compute; reflexivity).
  assert (Hrun : create_uuid_migration Shop.registry "Order" "shop" []
                   (Some [Shop.LineItem_order]) "id" true =
                 (Ok {| dependencies := [];
                        operations :=
                          plan_operations "Order" "shop" "id"
                            [Shop.OrderTagThrough_order] [Shop.LineItem_order] |},
                  final_frame "Order" "shop" "id" [Shop.OrderTagThrough_order]
                    [Shop.LineItem_order])).
  { exact (create_uuid_migration_detected Shop.registry "Order" "shop" []
             (Some [Shop.LineItem_order]) "id" Shop.discovered Hfound eq_refl). }
  destruct (C4_dependents_ordered_around_primary_key_swap _ _ _ _ _ _ _ _ _ Hrun)
    as (before & after & Hsplit & _ & _ & Hauto & _).
  exists before, after. split; [exact Hsplit|].
  destruct (Hauto eq_refl _ Hfound) as [_ Hchildren].
  apply (Hchildren Shop.LineItem_order). simpl. auto.
Defined.

(** ** The data step *)

(** A row whose parent is missing gets an empty surrogate when the foreign
    key is nullable, and the loop goes on. *)
Lemma update_foreign_keys_nullable_orphan (ParentModel : list ParentRow)
    (child : ChildRow) (rest : list ChildRow) :
  objects_get ParentModel (fk_id child) = inr DoesNotExist ->
  update_foreign_keys ParentModel true (child :: rest) =
  ({| fk_id := fk_id child; fk_uuid := None |} ::
     fst (update_foreign_keys ParentModel true rest),
   snd (update_foreign_keys ParentModel true rest)).
Proof.
  intro H. cbn [update_foreign_keys]. rewrite H.
  destruct (update_foreign_keys ParentModel true rest). reflexivity.
Qed.

(** A row whose parent is missing is left as it is when the foreign key is
    not nullable, and the loop goes on without an exception. *)
Lemma update_foreign_keys_required_orphan (ParentModel : list ParentRow)
    (child : ChildRow) (rest : list ChildRow) :
  objects_get ParentModel (fk_id child) = inr DoesNotExist ->
  update_foreign_keys ParentModel false (child :: rest) =
  (child :: fst (update_foreign_keys ParentModel false rest),
   snd (update_foreign_keys ParentModel false rest)).
Proof.
  intro H. cbn [update_foreign_keys]. rewrite H.
  destruct (update_foreign_keys ParentModel false rest). reflexivity.
Qed.

(** C5 (code at the failing input): with a non-nullable foreign key, a
    child row that points at the missing parent 7 is skipped:
    update_foreign_keys ends without an exception and leaves the row as it
    was, its surrogate still empty; nothing tells the operator. *)
Theorem C5_required_orphan_is_skipped_silently :
  update_foreign_keys
    [{| pk := 1; pk_uuid := Some 11%N |}] false
    [{| fk_id := Some 1%Z; fk_uuid := None |};
     {| fk_id := Some 7%Z; fk_uuid := None |}] =
  ([{| fk_id := Some 1%Z; fk_uuid := Some 11%N |};
    {| fk_id := Some 7%Z; fk_uuid := None |}],
   None).
Proof. reflexivity. Qed.

(** ** The lambdas of the plan *)

(** After the call, every lambda of the child loop calls update_foreign_keys
    for the last child of the list. *)
Lemma child_lambda_bound_to_last (parent_model app_name pk_field : string)
    (throughs : list ThroughInfo) (children : list ChildInfo) (child : ChildInfo) :
  last_opt children = Some child ->
  call_lambda (final_frame parent_model app_name pk_field throughs children)
    lambda_update_child =
  Ok (update_foreign_keys_call parent_model (c_model child) app_name
        (get_default (c_app_name child) app_name) (c_fk_field child) pk_field).
Proof.
  intro Hlast. unfold call_lambda, final_frame. frame_projections.
  rewrite Hlast. reflexivity.
Qed.

(** C6 (code at the failing input): for the child list LineItem.order,
    Invoice.customer_order, the populate step emitted in LineItem's block
    (operation 4, after AddField lineitem.order_uuid) calls
    update_foreign_keys for Invoice.customer_order when it is run, not for
    LineItem.order. *)
Theorem C6_populate_step_of_first_child_updates_last_child :
  exists migration frame,
    create_uuid_migration Shop.registry "Order" "shop" []
      (Some [Shop.LineItem_order; Shop.Invoice_order]) "id" false =
      (Ok migration, frame) /\
    nth_error (operations migration) 3 =
      Some (AddField "lineitem" "order_uuid" UUIDField_null) /\
    (exists code,
       nth_error (operations migration) 4 = Some (RunPython code) /\
       call_lambda frame code =
         Ok (update_foreign_keys_call "Order" "Invoice" "shop" "billing"
               "customer_order" "id")).
Proof.
  eexists. eexists. split; [apply create_uuid_migration_manual|].
  split; [vm_compute; reflexivity|].
  exists lambda_update_child. split; vm_compute; reflexivity.
Qed.

(** ** A target without dependents *)

(** C7: for a target with no foreign-key dependent and no explicit through
    model, and no child list from the caller, the call returns exactly six
    operations: add the nullable surrogate field, populate it, tighten it,
    remove the old primary key, rename the surrogate, set it as primary
    key. *)
Theorem C7_plan_without_dependents (django_apps : Apps)
    (parent_model app_name : string) (dependencies : list (string * string))
    (child_models : option (list ChildInfo)) (pk_field : string)
    (auto_detect_relations : bool) (found : Found) :
  find_related_models app_name parent_model django_apps = Ok found ->
  fk_models found = [] ->
  through_models found = [] ->
  implicit_m2m found = [] \/ auto_detect_relations = false ->
  child_models = None \/ child_models = Some [] ->
  exists frame,
    create_uuid_migration django_apps parent_model app_name dependencies
      child_models pk_field auto_detect_relations =
    (Ok {| dependencies := dependencies;
           operations :=
             [AddField (lower parent_model) (fmt [pk_field; "_uuid"]) UUIDField_null;
              RunPython lambda_generate_uuid_for_model;
              AlterField (lower parent_model) (fmt [pk_field; "_uuid"])
                UUIDField_default;
              RemoveField (lower parent_model) pk_field;
              RenameField (lower parent_model) (fmt [pk_field; "_uuid"]) pk_field;
              AlterField (lower parent_model) pk_field UUIDField_primary_key] |},
     frame) /\
    call_lambda frame lambda_generate_uuid_for_model =
      Ok (generate_uuid_for_model_call parent_model app_name pk_field).
Proof.
  intros Hfound Hfk Hthrough Hgate Hchildren.
  destruct auto_detect_relations.
  - destruct Hgate as [Himplicit|]; [|discriminate].
    rewrite (create_uuid_migration_detected _ _ _ _ _ _ found Hfound Himplicit).
    rewrite Hfk, Hthrough.
    destruct Hchildren as [->| ->]; (eexists; split; reflexivity).
  - rewrite create_uuid_migration_manual.
    destruct Hchildren as [->| ->]; (eexists; split; reflexivity).
Qed.

Lemma C7_witness :
  exists frame,
    create_uuid_migration Shop.registry_with_coupon "Coupon" "shop"
      [("shop", "0001_initial")]
      None "id" true =
    (Ok {| dependencies := [("shop", "0001_initial")];
           operations :=
             [AddField "coupon" "id_uuid" UUIDField_null;
              RunPython lambda_generate_uuid_for_model;
              AlterField "coupon" "id_uuid" UUIDField_default;
              RemoveField "coupon" "id";
              RenameField "coupon" "id_uuid" "id";
              AlterField "coupon" "id" UUIDField_primary_key] |},
     frame) /\
    call_lambda frame lambda_generate_uuid_for_model =
      Ok (generate_uuid_for_model_call "Coupon" "shop" "id").
Proof.
  apply (C7_plan_without_dependents Shop.registry_with_coupon "Coupon" "shop"
           [("shop", "0001_initial")] None "id" true
           {| fk_models := []; implicit_m2m := []; through_models := [] |}).
  - vm_compute. reflexivity.
  - reflexivity.
  - reflexivity.
  - left. reflexivity.
  - left. reflexivity.
Defined.

(** ** The join-table name of the report *)

Example catalog_join_table_name :
  automatic_table_name Catalog.Product_tags_relation = "catalog_product_tags".
Proof. vm_compute. reflexivity. Qed.

(** ** Calls without auto-detection *)

(** C9 as stated fails: for Product of the catalog registry, which has an
    implicit many-to-many relation, the call with auto_detect_relations
    disabled raises nothing and returns a plan. *)
Lemma C9_counterexample :
  ~ (exists e frame,
       create_uuid_migration Catalog.registry "Product" "catalog" [] None "id" false =
       (Raise e, frame)).
Proof.
  intros (e & frame & H). rewrite create_uuid_migration_manual in H. discriminate H.
Qed.

(** C9, amended: with auto_detect_relations disabled the call never raises;
    it looks at no registry, returns a plan made of the target's own steps
    and the steps of the caller's child list, without any through-model
    step. *)
Theorem C9_without_detection_a_plan_is_returned (django_apps : Apps)
    (parent_model app_name : string) (dependencies : list (string * string))
    (child_models : option (list ChildInfo)) (pk_field : string) :
  exists frame,
    create_uuid_migration django_apps parent_model app_name dependencies
      child_models pk_field false =
    (Ok {| dependencies := dependencies;
           operations :=
             parent_add_ops parent_model pk_field ++
             flat_map child_swap_ops (children_of child_models []) ++
             parent_swap_ops parent_model pk_field ++
             map (child_foreign_key_op parent_model app_name)
               (children_of child_models []) |},
     frame).
Proof.
  rewrite create_uuid_migration_manual. eexists.
  unfold plan_operations. cbn [flat_map map]. rewrite app_nil_r. reflexivity.
Qed.

(** ** Children given by the caller *)

(** C10: with auto-detection and no implicit relation, a child list given
    by the caller replaces the discovered foreign keys: the plan holds the
    swap and foreign-key steps of the given children and of the discovered
    through fields, and nothing of the discovered foreign keys; the
    discovered foreign keys are used when the caller gives no list. *)
Theorem C10_supplied_children_replace_discovered (django_apps : Apps)
    (parent_model app_name : string) (dependencies : list (string * string))
    (pk_field : string) (found : Found) (supplied : list ChildInfo) :
  find_related_models app_name parent_model django_apps = Ok found ->
  implicit_m2m found = [] ->
  (exists frame,
     create_uuid_migration django_apps parent_model app_name dependencies
       (Some supplied) pk_field true =
     (Ok {| dependencies := dependencies;
            operations :=
              parent_add_ops parent_model pk_field ++
              flat_map through_swap_ops (through_models found) ++
              flat_map child_swap_ops supplied ++
              parent_swap_ops parent_model pk_field ++
              map (child_foreign_key_op parent_model app_name) supplied ++
              map (through_foreign_key_op parent_model app_name)
                (through_models found) |},
      frame)) /\
  (exists frame,
     create_uuid_migration django_apps parent_model app_name dependencies
       None pk_field true =
     (Ok {| dependencies := dependencies;
            operations :=
              parent_add_ops parent_model pk_field ++
              flat_map through_swap_ops (through_models found) ++
              flat_map child_swap_ops (fk_models found) ++
              parent_swap_ops parent_model pk_field ++
              map (child_foreign_key_op parent_model app_name) (fk_models found) ++
              map (through_foreign_key_op parent_model app_name)
                (through_models found) |},
      frame)).
Proof.
  intros Hfound Himplicit. split.
  - rewrite (create_uuid_migration_detected _ _ _ _ _ _ found Hfound Himplicit).
    eexists. reflexivity.
  - rewrite (create_uuid_migration_detected _ _ _ _ _ _ found Hfound Himplicit).
    eexists. reflexivity.
Qed.

Lemma C10_witness :
  exists frame,
    create_uuid_migration Shop.registry "Order" "shop" []
      (Some [Shop.Invoice_order]) "id" true =
    (Ok {| dependencies := [];
           operations :=
             parent_add_ops "Order" "id" ++
             flat_map through_swap_ops [Shop.OrderTagThrough_order] ++
             flat_map child_swap_ops [Shop.Invoice_order] ++
             parent_swap_ops "Order" "id" ++
             map (child_foreign_key_op "Order" "shop") [Shop.Invoice_order] ++
             map (through_foreign_key_op "Order" "shop")
               [Shop.OrderTagThrough_order] |},
     frame).
Proof.
  assert (Hfound : find_related_models "shop" "Order" Shop.registry =
                     Ok Shop.discovered) by (vm_compute; reflexivity).
  destruct (C10_supplied_children_replace_discovered Shop.registry "Order" "shop"
              [] "id" Shop.discovered [Shop.Invoice_order] Hfound eq_refl)
    as [Hsupplied _].
  exact Hsupplied.
Defined.

(** ** Discovery, list by list *)

Ltac same_fk :=
  repeat match goal with
         | |- fk_models (if ?c then _ else _) = _ => destruct c
         end; try assumption; try reflexivity.

Lemma scan_through_fields_fk (parent_model_obj : Model) (through_model : Options)
    (acc : Found) :
  fk_models (scan_through_fields parent_model_obj through_model acc) = fk_models acc.
Proof.
  apply (fold_left_invariant _ (fun a => fk_models a = fk_models acc)).
  - reflexivity.
  - intros a b _ Ha. same_fk.
Qed.

Lemma scan_other_fields_fk (parent_model_obj : Model) (through_model : Options)
    (through_field : Field) (acc : Found) :
  fk_models (scan_other_fields parent_model_obj through_model through_field acc) =
  fk_models acc.
Proof.
  apply (fold_left_invariant _ (fun a => fk_models a = fk_models acc)).
  - reflexivity.
  - intros a b _ Ha. same_fk.
Qed.

Lemma scan_many_to_many_fk (parent_model_obj model : Model) (acc : Found) :
  fk_models (scan_many_to_many parent_model_obj model acc) = fk_models acc.
Proof.
  apply (fold_left_invariant _ (fun a => fk_models a = fk_models acc)).
  - reflexivity.
  - intros a b _ Ha.
    destruct (related_to (Some (m2m_related_model b)) parent_model_obj); [|exact Ha].
    destruct (auto_created (through b)); [exact Ha|].
    now rewrite scan_through_fields_fk.
Qed.

Lemma scan_parent_many_to_many_fk (app_name parent_model : string)
    (parent_model_obj : Model) (acc : Found) :
  fk_models (scan_parent_many_to_many app_name parent_model parent_model_obj acc) =
  fk_models acc.
Proof.
  apply (fold_left_invariant _ (fun a => fk_models a = fk_models acc)).
  - reflexivity.
  - intros a b _ Ha.
    destruct (auto_created (through b)); [exact Ha|].
    apply (fold_left_invariant _ (fun a' => fk_models a' = fk_models acc)).
    + exact Ha.
    + intros a' f _ Ha'.
      destruct (is_relation f && negb (related_to (related_model f) parent_model_obj));
        [|exact Ha'].
      now rewrite scan_other_fields_fk.
Qed.

Lemma scan_fields_sound (apps : Apps) (parent_model_obj model : Model) (acc : Found) :
  In model (get_models apps) ->
  (forall e, In e (fk_models acc) -> fk_entry_of apps parent_model_obj e) ->
  forall e, In e (fk_models (scan_fields parent_model_obj model acc)) ->
            fk_entry_of apps parent_model_obj e.
Proof.
  intros Hmodel Hacc.
  apply (fold_left_invariant _
           (fun a => forall e, In e (fk_models a) -> fk_entry_of apps parent_model_obj e));
    [exact Hacc|].
  intros a field Hfield Ha.
  destruct (is_relation field) eqn:Hrel; [|exact Ha].
  destruct (related_to (related_model field) parent_model_obj) eqn:Hto; [|exact Ha].
  intros e He. simpl in He. apply in_app_or in He.
  destruct He as [He|[<-|[]]]; [now apply Ha|].
  exists model, field. repeat split; assumption.
Qed.

Lemma find_related_models_fk_sound (app_name parent_model : string)
    (apps_registry : Apps) (found : Found) (parent_model_obj : Model) :
  find_related_models app_name parent_model apps_registry = Ok found ->
  get_model apps_registry app_name parent_model = Ok parent_model_obj ->
  forall e, In e (fk_models found) -> fk_entry_of apps_registry parent_model_obj e.
Proof.
  intros Hfound Hget.
  apply find_related_models_resolved in Hfound.
  destruct Hfound as (p & Hget' & ->).
  rewrite Hget in Hget'. injection Hget' as <-.
  rewrite scan_parent_many_to_many_fk.
  apply (fold_left_invariant _
           (fun a => forall e, In e (fk_models a) ->
                               fk_entry_of apps_registry parent_model_obj e)).
  - intros e [].
  - intros a model Hmodel Ha e He.
    rewrite scan_many_to_many_fk in He.
    revert e He. now apply scan_fields_sound.
Qed.

(** X1: the foreign-key list of find_related_models holds exactly the
    relation fields that point at the parent model, on the models that
    get_models returns (automatically created models are left out), each
    with the name, the application label of its model and the field name. *)
Theorem X1_fk_models_are_the_relation_fields (app_name parent_model : string)
    (apps_registry : Apps) (found : Found) :
  find_related_models app_name parent_model apps_registry = Ok found ->
  exists parent_model_obj,
    get_model apps_registry app_name parent_model = Ok parent_model_obj /\
    forall e,
      In e (fk_models found) <->
      exists model field,
        In model (all_models apps_registry) /\
        auto_created (_meta model) = false /\
        In field (fields (_meta model)) /\
        is_relation field = true /\
        related_to (related_model field) parent_model_obj = true /\
        e = {| c_model := object_name (label (_meta model));
               c_app_name := Some (app_label (label (_meta model)));
               c_fk_field := name field |}.
Proof.
  intro Hfound.
  destruct (find_related_models_resolved _ _ _ _ Hfound) as (p & Hget & _).
  exists p. split; [exact Hget|]. intro e. split.
  - intro He.
    destruct (find_related_models_fk_sound _ _ _ _ _ Hfound Hget e He)
      as (model & field & Hmodel & Hfield & Hrel & Hto & ->).
    unfold get_models in Hmodel. apply filter_In in Hmodel.
    destruct Hmodel as [Hin Hauto]. apply negb_true_iff in Hauto.
    exists model, field. repeat split; assumption.
  - intros (model & field & Hin & Hauto & Hfield & Hrel & Hto & ->).
    apply (foreign_key_listed _ _ _ _ _ model field Hfound Hget); try assumption.
    unfold get_models. apply filter_In. split; [exact Hin|].
    now apply negb_true_iff.
Qed.

Lemma X1_witness :
  exists parent_model_obj,
    get_model Shop.registry "shop" "Order" = Ok parent_model_obj /\
    forall e,
      In e (fk_models Shop.discovered) <->
      exists model field,
        In model (all_models Shop.registry) /\
        auto_created (_meta model) = false /\
        In field (fields (_meta model)) /\
        is_relation field = true /\
        related_to (related_model field) parent_model_obj = true /\
        e = {| c_model := object_name (label (_meta model));
               c_app_name := Some (app_label (label (_meta model)));
               c_fk_field := name field |}.
Proof.
  apply (X1_fk_models_are_the_relation_fields "shop" "Order" Shop.registry
           Shop.discovered).
  vm_compute. reflexivity.
Defined.

Ltac same_through :=
  repeat match goal with
         | |- through_models (if ?c then _ else _) = _ => destruct c
         end; try assumption; try reflexivity.

Lemma scan_fields_through (parent_model_obj model : Model) (acc : Found) :
  through_models (scan_fields parent_model_obj model acc) = through_models acc.
Proof.
  apply (fold_left_invariant _ (fun a => through_models a = through_models acc)).
  - reflexivity.
  - intros a b _ Ha. same_through.
Qed.

Section ThroughSound.

Variable apps : Apps.
Variable parent_model_obj : Model.

Abbreviation sound := (through_list_sound apps parent_model_obj).

Lemma sound_append_implicit (a : Found) (e : M2MInfo) :
  sound a -> sound (append_implicit a e).
Proof. intros Ha t Ht. now apply Ha. Qed.

Lemma sound_append_through (a : Found) (t : ThroughInfo) :
  sound a -> through_entry_of apps parent_model_obj t -> sound (append_through a t).
Proof.
  intros Ha Ht t' Hin. simpl in Hin. apply in_app_or in Hin.
  destruct Hin as [Hin|[<-|[]]]; [now apply Ha | exact Ht].
Qed.

Lemma scan_through_fields_sound (model : Model) (field : ManyToManyField) (acc : Found) :
  In model (all_models apps) ->
  In field (many_to_many model) ->
  auto_created (through field) = false ->
  sound acc ->
  sound (scan_through_fields parent_model_obj (through field) acc).
Proof.
  intros Hmodel Hfield Hauto Hacc.
  apply (fold_left_invariant _ sound); [exact Hacc|].
  intros a through_field Hin Ha.
  destruct (is_relation through_field) eqn:Hrel; [|exact Ha].
  destruct (related_to (related_model through_field) parent_model_obj) eqn:Hto;
    [|exact Ha].
  apply sound_append_through; [exact Ha|].
  exists model, field, through_field. repeat split; assumption.
Qed.

Lemma scan_other_fields_sound (model : Model) (field : ManyToManyField)
    (through_field : Field) (acc : Found) :
  In model (all_models apps) ->
  In field (many_to_many model) ->
  auto_created (through field) = false ->
  sound acc ->
  sound (scan_other_fields parent_model_obj (through field) through_field acc).
Proof.
  intros Hmodel Hfield Hauto Hacc.
  apply (fold_left_invariant _ sound); [exact Hacc|].
  intros a other_field Hin Ha.
  destruct (is_relation other_field) eqn:Hrel; [|exact Ha].
  destruct (related_to (related_model other_field) parent_model_obj) eqn:Hto;
    [|exact Ha].
  destruct (negb (String.eqb (name other_field) (name through_field))); [|exact Ha].
  apply sound_append_through; [exact Ha|].
  exists model, field, other_field. repeat split; assumption.
Qed.

Lemma scan_many_to_many_sound (model : Model) (acc : Found) :
  In model (all_models apps) ->
  sound acc ->
  sound (scan_many_to_many parent_model_obj model acc).
Proof.
  intros Hmodel Hacc.
  apply (fold_left_invariant _ sound); [exact Hacc|].
  intros a field Hfield Ha.
  destruct (related_to (Some (m2m_related_model field)) parent_model_obj); [|exact Ha].
  destruct (auto_created (through field)) eqn:Hauto.
  - now apply sound_append_implicit.
  - now apply (scan_through_fields_sound model).
Qed.

Lemma scan_parent_many_to_many_sound (app_name parent_model : string) (acc : Found) :
  In parent_model_obj (all_models apps) ->
  sound acc ->
  sound (scan_parent_many_to_many app_name parent_model parent_model_obj acc).
Proof.
  intros Hparent Hacc.
  apply (fold_left_invariant _ sound); [exact Hacc|].
  intros a field Hfield Ha.
  destruct (auto_created (through field)) eqn:Hauto.
  - now apply sound_append_implicit.
  - apply (fold_left_invariant _ sound); [exact Ha|].
    intros a' through_field _ Ha'.
    destruct (is_relation through_field &&
              negb (related_to (related_model through_field) parent_model_obj));
      [|exact Ha'].
    now apply (scan_other_fields_sound parent_model_obj).
Qed.

End ThroughSound.

Lemma find_related_models_through_sound (app_name parent_model : string)
    (apps_registry : Apps) (parent_model_obj : Model) :
  get_model apps_registry app_name parent_model = Ok parent_model_obj ->
  through_list_sound apps_registry parent_model_obj
    (scan_parent_many_to_many app_name parent_model parent_model_obj
       (fold_left
          (fun acc model =>
             scan_many_to_many parent_model_obj model
               (scan_fields parent_model_obj model acc))
          (get_models apps_registry)
          {| fk_models := []; implicit_m2m := []; through_models := [] |})).
Proof.
  intro Hget.
  apply scan_parent_many_to_many_sound.
  - now apply get_model_resolved in Hget.
  - apply (fold_left_invariant _ (through_list_sound apps_registry parent_model_obj)).
    + intros t [].
    + intros a model Hmodel Ha.
      apply scan_many_to_many_sound.
      * unfold get_models in Hmodel. apply filter_In in Hmodel. tauto.
      * intros t Ht. rewrite scan_fields_through in Ht. now apply Ha.
Qed.



(** ** Implicit relations are never missed *)

Lemma extends_implicit (a b : Found) (e : M2MInfo) :
  extends a b -> In e (implicit_m2m a) -> In e (implicit_m2m b).
Proof. intros (_ & H & _). apply H. Qed.

Lemma scan_many_to_many_lists_implicit (parent_model_obj model : Model)
    (field : ManyToManyField) (acc : Found) :
  In field (many_to_many model) ->
  related_to (Some (m2m_related_model field)) parent_model_obj = true ->
  auto_created (through field) = true ->
  In {| m_model := object_name (label (_meta model));
        m_app_name := app_label (label (_meta model));
        m_field_name := m2m_name field;
        m_related := None |}
     (implicit_m2m (scan_many_to_many parent_model_obj model acc)).
Proof.
  intros Hin Hto Hauto. unfold scan_many_to_many.
  apply (fold_left_reaches _
           (fun a => In {| m_model := object_name (label (_meta model));
                           m_app_name := app_label (label (_meta model));
                           m_field_name := m2m_name field;
                           m_related := None |} (implicit_m2m a))
           _ _ field Hin).
  - intro a. rewrite Hto, Hauto. simpl. apply in_or_app. right. left. reflexivity.
  - intros a b Ha. eapply extends_implicit; [|exact Ha].
    destruct (related_to (Some (m2m_related_model b)) parent_model_obj);
      [|apply extends_refl].
    destruct (auto_created (through b));
      [apply extends_append_implicit | apply scan_through_fields_extends].
Qed.

Lemma scan_parent_many_to_many_lists_implicit (app_name parent_model : string)
    (parent_model_obj : Model) (field : ManyToManyField) (acc : Found) :
  In field (many_to_many parent_model_obj) ->
  auto_created (through field) = true ->
  In {| m_model := parent_model;
        m_app_name := app_name;
        m_field_name := m2m_name field;
        m_related := Some (object_name (m2m_related_model field),
                           app_label (m2m_related_model field)) |}
     (implicit_m2m
        (scan_parent_many_to_many app_name parent_model parent_model_obj acc)).
Proof.
  intros Hin Hauto. unfold scan_parent_many_to_many.
  apply (fold_left_reaches _
           (fun a => In {| m_model := parent_model;
                           m_app_name := app_name;
                           m_field_name := m2m_name field;
                           m_related := Some (object_name (m2m_related_model field),
                                              app_label (m2m_related_model field)) |}
                        (implicit_m2m a))
           _ _ field Hin).
  - intro a. rewrite Hauto. simpl. apply in_or_app. right. left. reflexivity.
  - intros a b Ha. eapply extends_implicit; [|exact Ha].
    destruct (auto_created (through b)); [apply extends_append_implicit|].
    apply fold_left_extends. intros a' f.
    destruct (is_relation f && negb (related_to (related_model f) parent_model_obj));
      [apply scan_other_fields_extends | apply extends_refl].
Qed.

Lemma find_related_models_found (app_name parent_model : string) (apps_registry : Apps)
    (parent_model_obj : Model) :
  get_model apps_registry app_name parent_model = Ok parent_model_obj ->
  exists found, find_related_models app_name parent_model apps_registry = Ok found.
Proof.
  intro Hget. unfold find_related_models. rewrite Hget. eexists. reflexivity.
Qed.

(** An implicit many-to-many field of a registered model that targets the
    parent is in the implicit list. *)
Lemma inbound_implicit_listed (app_name parent_model : string) (apps_registry : Apps)
    (found : Found) (parent_model_obj model : Model) (field : ManyToManyField) :
  find_related_models app_name parent_model apps_registry = Ok found ->
  get_model apps_registry app_name parent_model = Ok parent_model_obj ->
  In model (get_models apps_registry) ->
  In field (many_to_many model) ->
  related_to (Some (m2m_related_model field)) parent_model_obj = true ->
  auto_created (through field) = true ->
  In {| m_model := object_name (label (_meta model));
        m_app_name := app_label (label (_meta model));
        m_field_name := m2m_name field;
        m_related := None |} (implicit_m2m found).
Proof.
  intros Hfound Hget Hmodel Hfield Hto Hauto.
  apply find_related_models_resolved in Hfound.
  destruct Hfound as (p & Hget' & ->).
  rewrite Hget in Hget'. injection Hget' as <-.
  eapply extends_implicit; [apply scan_parent_many_to_many_extends|].
  apply (fold_left_reaches _
           (fun a => In {| m_model := object_name (label (_meta model));
                           m_app_name := app_label (label (_meta model));
                           m_field_name := m2m_name field;
                           m_related := None |} (implicit_m2m a))
           _ _ model Hmodel).
  - intro a. now apply scan_many_to_many_lists_implicit.
  - intros a b Ha. eapply extends_implicit; [|exact Ha].
    eapply extends_trans; [apply scan_fields_extends | apply scan_many_to_many_extends].
Qed.

(** An implicit many-to-many field of the parent model is in the implicit
    list. *)
Lemma outbound_implicit_listed (app_name parent_model : string) (apps_registry : Apps)
    (found : Found) (parent_model_obj : Model) (field : ManyToManyField) :
  find_related_models app_name parent_model apps_registry = Ok found ->
  get_model apps_registry app_name parent_model = Ok parent_model_obj ->
  In field (many_to_many parent_model_obj) ->
  auto_created (through field) = true ->
  In {| m_model := parent_model;
        m_app_name := app_name;
        m_field_name := m2m_name field;
        m_related := Some (object_name (m2m_related_model field),
                           app_label (m2m_related_model field)) |}
     (implicit_m2m found).
Proof.
  intros Hfound Hget Hfield Hauto.
  apply find_related_models_resolved in Hfound.
  destruct Hfound as (p & Hget' & ->).
  rewrite Hget in Hget'. injection Hget' as <-.
  now apply scan_parent_many_to_many_lists_implicit.
Qed.

(** X3: when a model that get_models returns has a many-to-many field
    with an automatically created join table that targets the parent
    model, or the parent model has such a field itself, the call with
    auto-detection raises ValueError, whatever child list the caller gives,
    and no operation has been appended. *)
Theorem X3_implicit_relation_always_blocks (django_apps : Apps)
    (parent_model app_name : string) (dependencies : list (string * string))
    (child_models : option (list ChildInfo)) (pk_field : string)
    (parent_model_obj model : Model) (field : ManyToManyField) :
  get_model django_apps app_name parent_model = Ok parent_model_obj ->
  auto_created (through field) = true ->
  (In model (all_models django_apps) /\
   auto_created (_meta model) = false /\
   In field (many_to_many model) /\
   related_to (Some (m2m_related_model field)) parent_model_obj = true) \/
  In field (many_to_many parent_model_obj) ->
  exists message frame,
    create_uuid_migration django_apps parent_model app_name dependencies
      child_models pk_field true = (Raise (ValueError message), frame) /\
    local_operations frame = [].
Proof.
  intros Hget Hauto Hfield.
  destruct (find_related_models_found _ _ _ _ Hget) as (found & Hfound).
  assert (Himplicit : implicit_m2m found <> []).
  { destruct Hfield as [(Hin & Hreg & Hfield & Hto)|Hfield].
    - assert (Hmodel : In model (get_models django_apps)).
      { unfold get_models. apply filter_In. split; [exact Hin|].
        now apply negb_true_iff. }
      pose proof (inbound_implicit_listed _ _ _ _ _ _ _ Hfound Hget Hmodel Hfield
                    Hto Hauto) as H.
      intro E. rewrite E in H. exact H.
    - pose proof (outbound_implicit_listed _ _ _ _ _ _ Hfound Hget Hfield Hauto) as H.
      intro E. rewrite E in H. exact H. }
  exists (error_message parent_model (implicit_m2m found)),
         (initial_frame parent_model app_name pk_field).
  split; [|reflexivity].
  now apply create_uuid_migration_blocked.
Qed.

Lemma X3_witness :
  exists message frame,
    create_uuid_migration Catalog.registry "Tag" "catalog" []
      (Some []) "id" true = (Raise (ValueError message), frame) /\
    local_operations frame = [].
Proof.
  apply (X3_implicit_relation_always_blocks Catalog.registry "Tag" "catalog" []
           (Some []) "id" Catalog.Tag Catalog.Product
           {| m2m_name := "tags"; m2m_related_model := Catalog.Tag_ref;
              through := Catalog.Product_tags_meta |}).
  - vm_compute. reflexivity.
  - reflexivity.
  - left. split; [|split; [|split]].
    + simpl. auto.
    + reflexivity.
    + simpl. auto.
    + vm_compute. reflexivity.
Defined.

(** ** What a call returns or raises *)

Lemma find_related_models_raises (app_name parent_model : string) (apps_registry : Apps)
    (e : exn) :
  find_related_models app_name parent_model apps_registry = Raise e ->
  e = LookupError /\ get_model apps_registry app_name parent_model = Raise LookupError.
Proof.
  unfold find_related_models, get_model.
  destruct (find _ (all_models apps_registry)); [discriminate|].
  intro H. injection H as <-. split; reflexivity.
Qed.

(** The migration and the frame of a call that returns. *)
Lemma create_uuid_migration_result (django_apps : Apps)
    (parent_model app_name : string) (dependencies : list (string * string))
    (child_models : option (list ChildInfo)) (pk_field : string)
    (auto_detect_relations : bool) (migration : Migration) (frame : Frame) :
  create_uuid_migration django_apps parent_model app_name dependencies
    child_models pk_field auto_detect_relations = (Ok migration, frame) ->
  exists throughs children,
    migration =
      {| dependencies := dependencies;
         operations := plan_operations parent_model app_name pk_field throughs children |} /\
    frame = final_frame parent_model app_name pk_field throughs children /\
    (auto_detect_relations = false ->
     throughs = [] /\ children = children_of child_models []) /\
    (auto_detect_relations = true ->
     exists found,
       find_related_models app_name parent_model django_apps = Ok found /\
       implicit_m2m found = [] /\
       throughs = through_models found /\
       children = children_of child_models (fk_models found)).
Proof.
  destruct auto_detect_relations.
  - destruct (find_related_models app_name parent_model django_apps) as [found|e] eqn:Hf.
    + destruct (implicit_m2m found) as [|m2m rest] eqn:Hi.
      * rewrite (create_uuid_migration_detected _ _ _ _ _ _ found Hf Hi).
        intro H. injection H as <- <-.
        exists (through_models found), (children_of child_models (fk_models found)).
        repeat split; try discriminate. intros _. exists found. auto.
      * rewrite (create_uuid_migration_blocked _ _ _ _ _ _ found Hf);
          [discriminate | rewrite Hi; discriminate].
    + rewrite (create_uuid_migration_unresolved _ _ _ _ _ _ e Hf). discriminate.
  - rewrite create_uuid_migration_manual. intro H. injection H as <- <-.
    exists [], (children_of child_models []).
    repeat split; discriminate.
Qed.

(** X4: with a child list in the format of the docstring (every dict has
    the keys 'model' and 'fk_field', which is what a [ChildInfo] is), a call
    of create_uuid_migration raises only with auto-detection, only
    LookupError (the parent model is not in the registry) or the ValueError
    of the implicit many-to-many check, and always before any operation is
    appended.  A dict without one of the two keys is not a [ChildInfo]: for
    such a dict the subscript of lines 363-364 raises KeyError after the
    first operations have been appended, which this statement does not
    cover. *)
Theorem X4_failures_precede_every_operation (django_apps : Apps)
    (parent_model app_name : string) (dependencies : list (string * string))
    (child_models : option (list ChildInfo)) (pk_field : string)
    (auto_detect_relations : bool) (e : exn) (frame : Frame) :
  create_uuid_migration django_apps parent_model app_name dependencies
    child_models pk_field auto_detect_relations = (Raise e, frame) ->
  auto_detect_relations = true /\
  local_operations frame = [] /\
  ((e = LookupError /\
    get_model django_apps app_name parent_model = Raise LookupError) \/
   (exists found,
      find_related_models app_name parent_model django_apps = Ok found /\
      implicit_m2m found <> [] /\
      e = ValueError (error_message parent_model (implicit_m2m found)))).
Proof.
  destruct auto_detect_relations.
  - destruct (find_related_models app_name parent_model django_apps) as [found|e'] eqn:Hf.
    + destruct (implicit_m2m found) as [|m2m rest] eqn:Hi.
      * rewrite (create_uuid_migration_detected _ _ _ _ _ _ found Hf Hi). discriminate.
      * assert (Hne : implicit_m2m found <> []) by (rewrite Hi; discriminate).
        rewrite (create_uuid_migration_blocked _ _ _ _ _ _ found Hf Hne).
        intro H. injection H as <- <-.
        split; [reflexivity|]. split; [reflexivity|].
        right. exists found. rewrite Hi in *. auto.
    + rewrite (create_uuid_migration_unresolved _ _ _ _ _ _ e' Hf).
      intro H. injection H as <- <-.
      split; [reflexivity|]. split; [reflexivity|].
      left. now apply find_related_models_raises in Hf.
  - rewrite create_uuid_migration_manual. discriminate.
Qed.

Lemma X4_witness :
  true = true /\
  local_operations (initial_frame "Voucher" "shop" "id") = [] /\
  ((LookupError = LookupError /\
    get_model Shop.registry "shop" "Voucher" = Raise LookupError) \/
   (exists found,
      find_related_models "shop" "Voucher" Shop.registry = Ok found /\
      implicit_m2m found <> [] /\
      LookupError = ValueError (error_message "Voucher" (implicit_m2m found)))).
Proof.
  apply (X4_failures_precede_every_operation Shop.registry "Voucher" "shop" []
           None "id" true LookupError (initial_frame "Voucher" "shop" "id")).
  vm_compute. reflexivity.
Defined.

(** X5: a migration that create_uuid_migration returns carries the
    caller's dependencies unchanged, and has six operations for the parent
    model and five for every dependent it handles: the discovered through
    fields, and the caller's children or, without a child list, the
    discovered foreign keys. *)
Theorem X5_dependencies_and_size_of_the_plan (django_apps : Apps)
    (parent_model app_name : string) (deps : list (string * string))
    (child_models : option (list ChildInfo)) (pk_field : string)
    (auto_detect_relations : bool) (migration : Migration) (frame : Frame) :
  create_uuid_migration django_apps parent_model app_name deps
    child_models pk_field auto_detect_relations = (Ok migration, frame) ->
  dependencies migration = deps /\
  (auto_detect_relations = false ->
   List.length (operations migration) =
     6 + 5 * List.length (children_of child_models [])) /\
  (auto_detect_relations = true ->
   forall found,
     find_related_models app_name parent_model django_apps = Ok found ->
     List.length (operations migration) =
       6 + 5 * (List.length (through_models found) +
                List.length (children_of child_models (fk_models found)))).
Proof.
  intro Hrun.
  destruct (create_uuid_migration_result _ _ _ _ _ _ _ _ _ Hrun)
    as (throughs & children & -> & _ & Hmanual & Hauto).
  split; [reflexivity|]. split.
  - intro Hfalse. destruct (Hmanual Hfalse) as [-> ->].
    cbn [operations]. now rewrite plan_operations_length.
  - intros Htrue found Hfound.
    destruct (Hauto Htrue) as (found' & Hfound' & _ & -> & ->).
    rewrite Hfound in Hfound'. injection Hfound' as <-.
    cbn [operations]. now rewrite plan_operations_length.
Qed.

Lemma X5_witness :
  dependencies
    {| dependencies := [("shop", "0001_initial")];
       operations :=
         plan_operations "Order" "shop" "id" []
           [Shop.LineItem_order; Shop.Invoice_order] |} =
    [("shop", "0001_initial")] /\
  (false = false ->
   List.length
     (plan_operations "Order" "shop" "id" []
        [Shop.LineItem_order; Shop.Invoice_order]) =
     6 + 5 * List.length [Shop.LineItem_order; Shop.Invoice_order]).
Proof.
  destruct (X5_dependencies_and_size_of_the_plan Shop.registry "Order" "shop"
              [("shop", "0001_initial")]
              (Some [Shop.LineItem_order; Shop.Invoice_order]) "id" false
              {| dependencies := [("shop", "0001_initial")];
                 operations :=
                   plan_operations "Order" "shop" "id" []
                     [Shop.LineItem_order; Shop.Invoice_order] |}
              (final_frame "Order" "shop" "id" []
                 [Shop.LineItem_order; Shop.Invoice_order])
              (create_uuid_migration_manual Shop.registry "Order" "shop"
                 [("shop", "0001_initial")]
                 (Some [Shop.LineItem_order; Shop.Invoice_order]) "id"))
    as (Hdeps & Hsize & _).
  split; [exact Hdeps | exact Hsize].
Defined.

(** ** Model names in the plan *)

Lemma lower_ascii_idempotent (c : ascii) : lower_ascii (lower_ascii c) = lower_ascii c.
Proof.
  destruct c as [[] [] [] [] [] [] [] []]; vm_compute; reflexivity.
Qed.

Lemma lower_idempotent (s : string) : lower (lower s) = lower s.
Proof.
  induction s as [|c s IH]; simpl; [reflexivity|].
  now rewrite lower_ascii_idempotent, IH.
Qed.

Lemma plan_operations_model_names (parent_model app_name pk_field : string)
    (throughs : list ThroughInfo) (children : list ChildInfo)
    (op : Operation) (model_name : string) :
  In op (plan_operations parent_model app_name pk_field throughs children) ->
  op_model_name op = Some model_name ->
  exists written, model_name = lower written.
Proof.
  unfold plan_operations. intros Hin Hname.
  repeat (apply in_app_or in Hin; destruct Hin as [Hin|Hin]).
  - exists parent_model. simpl in Hin.
    destruct Hin as [<-|[<-|[<-|[]]]]; simpl in Hname; congruence.
  - apply in_flat_map in Hin. destruct Hin as (t & _ & Hin).
    exists (t_model t). simpl in Hin.
    destruct Hin as [<-|[<-|[<-|[<-|[]]]]]; simpl in Hname; congruence.
  - apply in_flat_map in Hin. destruct Hin as (c & _ & Hin).
    exists (c_model c). simpl in Hin.
    destruct Hin as [<-|[<-|[<-|[<-|[]]]]]; simpl in Hname; congruence.
  - exists parent_model. simpl in Hin.
    destruct Hin as [<-|[<-|[<-|[]]]]; simpl in Hname; congruence.
  - apply in_map_iff in Hin. destruct Hin as (c & <- & _).
    exists (c_model c). simpl in Hname. congruence.
  - apply in_map_iff in Hin. destruct Hin as (t & <- & _).
    exists (t_model t). simpl in Hname. congruence.
Qed.

(** X6: a schema operation of a returned plan whose model name is written
    in ASCII names its model in lower case: [str.lower()] leaves the name
    unchanged, whatever the case of the names the caller or the registry
    gives. *)
Theorem X6_model_names_are_lower_case (django_apps : Apps)
    (parent_model app_name : string) (dependencies : list (string * string))
    (child_models : option (list ChildInfo)) (pk_field : string)
    (auto_detect_relations : bool) (migration : Migration) (frame : Frame)
    (op : Operation) (model_name : string) :
  create_uuid_migration django_apps parent_model app_name dependencies
    child_models pk_field auto_detect_relations = (Ok migration, frame) ->
  In op (operations migration) ->
  op_model_name op = Some model_name ->
  is_ascii model_name = true ->
  lower model_name = model_name.
Proof.
  intros Hrun Hin Hname _.
  destruct (create_uuid_migration_result _ _ _ _ _ _ _ _ _ Hrun)
    as (throughs & children & -> & _).
  destruct (plan_operations_model_names _ _ _ _ _ _ _ Hin Hname) as (written & ->).
  apply lower_idempotent.
Qed.

Lemma X6_witness : lower "lineitem" = "lineitem".
Proof.
  apply (X6_model_names_are_lower_case Shop.registry "Order" "shop" []
           (Some [Shop.LineItem_order]) "id" false
           {| dependencies := [];
              operations :=
                plan_operations "Order" "shop" "id" [] [Shop.LineItem_order] |}
           (final_frame "Order" "shop" "id" [] [Shop.LineItem_order])
           (RemoveField "lineitem" "order") "lineitem").
  - apply create_uuid_migration_manual.
  - vm_compute. auto 20.
  - reflexivity.
  - reflexivity.
Defined.

(** ** The lambdas of a returned plan *)

Lemma last_opt_some {A : Type} (l : list A) : l <> [] -> exists x, last_opt l = Some x.
Proof.
  destruct l as [|x l]; [congruence|]. intros _.
  rewrite last_opt_cons. eexists. reflexivity.
Qed.

Lemma plan_operations_lambdas (parent_model app_name pk_field : string)
    (throughs : list ThroughInfo) (children : list ChildInfo) (code : Lambda) :
  In (RunPython code)
     (plan_operations parent_model app_name pk_field throughs children) ->
  code = lambda_generate_uuid_for_model \/
  (code = lambda_update_through /\ throughs <> []) \/
  (code = lambda_update_child /\ children <> []).
Proof.
  unfold plan_operations. intro Hin.
  repeat (apply in_app_or in Hin; destruct Hin as [Hin|Hin]).
  - simpl in Hin. destruct Hin as [H|[H|[H|[]]]]; try discriminate.
    injection H as <-. now left.
  - apply in_flat_map in Hin. destruct Hin as (t & Ht & Hin). simpl in Hin.
    destruct Hin as [H|[H|[H|[H|[]]]]]; try discriminate.
    injection H as <-. right. left. split; [reflexivity|].
    intro E. rewrite E in Ht. exact Ht.
  - apply in_flat_map in Hin. destruct Hin as (c & Hc & Hin). simpl in Hin.
    destruct Hin as [H|[H|[H|[H|[]]]]]; try discriminate.
    injection H as <-. right. right. split; [reflexivity|].
    intro E. rewrite E in Hc. exact Hc.
  - simpl in Hin. destruct Hin as [H|[H|[H|[]]]]; discriminate.
  - apply in_map_iff in Hin. destruct Hin as (c & H & _). discriminate.
  - apply in_map_iff in Hin. destruct Hin as (t & H & _). discriminate.
Qed.

(** X7: every RunPython operation of a returned plan can be run: when its
    lambda is called after create_uuid_migration has returned, each of the
    variables it reads is bound, so the call raises no NameError and reaches
    generate_uuid_for_model or update_foreign_keys. *)
Theorem X7_lambdas_find_their_variables (django_apps : Apps)
    (parent_model app_name : string) (dependencies : list (string * string))
    (child_models : option (list ChildInfo)) (pk_field : string)
    (auto_detect_relations : bool) (migration : Migration) (frame : Frame)
    (code : Lambda) :
  create_uuid_migration django_apps parent_model app_name dependencies
    child_models pk_field auto_detect_relations = (Ok migration, frame) ->
  In (RunPython code) (operations migration) ->
  exists call, call_lambda frame code = Ok call.
Proof.
  intros Hrun Hin.
  destruct (create_uuid_migration_result _ _ _ _ _ _ _ _ _ Hrun)
    as (throughs & children & -> & -> & _).
  cbn [operations] in Hin.
  destruct (plan_operations_lambdas _ _ _ _ _ _ Hin)
    as [->|[[-> Hne]|[-> Hne]]].
  - eexists. reflexivity.
  - destruct (last_opt_some _ Hne) as (t & Ht).
    unfold call_lambda, final_frame. frame_projections.
    rewrite Ht. eexists. reflexivity.
  - destruct (last_opt_some _ Hne) as (c & Hc).
    unfold call_lambda, final_frame. frame_projections.
    rewrite Hc. eexists. reflexivity.
Qed.

Lemma X7_witness :
  exists call,
    call_lambda (final_frame "Order" "shop" "id" [] [Shop.LineItem_order])
      lambda_update_child = Ok call.
Proof.
  apply (X7_lambdas_find_their_variables Shop.registry "Order" "shop" []
           (Some [Shop.LineItem_order]) "id" false
           {| dependencies := [];
              operations :=
                plan_operations "Order" "shop" "id" [] [Shop.LineItem_order] |}).
  - apply create_uuid_migration_manual.
  - vm_compute. auto 20.
Defined.

Lemma populate_steps_counted (parent_model app_name pk_field : string)
    (throughs : list ThroughInfo) (children : list ChildInfo) :
  List.length (filter is_through_populate
                 (plan_operations parent_model app_name pk_field throughs children)) =
    List.length throughs /\
  List.length (filter is_child_populate
                 (plan_operations parent_model app_name pk_field throughs children)) =
    List.length children.
Proof.
  assert (Htt : forall l, filter is_through_populate (flat_map through_swap_ops l) =
                          map (fun _ => RunPython lambda_update_through) l).
  { induction l as [|t l IH]; [reflexivity|].
    cbn [flat_map through_swap_ops app filter is_through_populate map].
    now rewrite IH. }
  assert (Htc : forall l, filter is_through_populate (flat_map child_swap_ops l) = []).
  { induction l as [|c l IH]; [reflexivity|].
    cbn [flat_map child_swap_ops app filter is_through_populate]. exact IH. }
  assert (Hct : forall l, filter is_child_populate (flat_map through_swap_ops l) = []).
  { induction l as [|t l IH]; [reflexivity|].
    cbn [flat_map through_swap_ops app filter is_child_populate]. exact IH. }
  assert (Hcc : forall l, filter is_child_populate (flat_map child_swap_ops l) =
                          map (fun _ => RunPython lambda_update_child) l).
  { induction l as [|c l IH]; [reflexivity|].
    cbn [flat_map child_swap_ops app filter is_child_populate map].
    now rewrite IH. }
  assert (Hmt : forall (p : Operation -> bool) (l : list ThroughInfo),
             (forall t, p (through_foreign_key_op parent_model app_name t) = false) ->
             filter p (map (through_foreign_key_op parent_model app_name) l) = []).
  { intros p l Hp. induction l as [|t l IH]; [reflexivity|].
    cbn [map filter]. now rewrite Hp. }
  assert (Hmc : forall (p : Operation -> bool) (l : list ChildInfo),
             (forall c, p (child_foreign_key_op parent_model app_name c) = false) ->
             filter p (map (child_foreign_key_op parent_model app_name) l) = []).
  { intros p l Hp. induction l as [|c l IH]; [reflexivity|].
    cbn [map filter]. now rewrite Hp. }
  unfold plan_operations. rewrite !filter_app.
  rewrite Htt, Htc, Hct, Hcc.
  rewrite !Hmt, !Hmc by reflexivity.
  cbn [parent_add_ops parent_swap_ops filter is_through_populate is_child_populate app].
  rewrite !app_nil_r, !length_map. split; reflexivity.
Qed.

(** X8: with auto-detection, the returned plan holds one populate step per
    discovered through field and one per child, and all the steps of one
    loop share one binding: run after the call, a through step calls
    update_foreign_keys for the last through field and a child step for the
    last child, with the parent's application as the child's when the child
    names none. *)
Theorem X8_populate_steps_share_the_last_binding (django_apps : Apps)
    (parent_model app_name : string) (dependencies : list (string * string))
    (child_models : option (list ChildInfo)) (pk_field : string) (found : Found) :
  find_related_models app_name parent_model django_apps = Ok found ->
  implicit_m2m found = [] ->
  exists migration frame,
    create_uuid_migration django_apps parent_model app_name dependencies
      child_models pk_field true = (Ok migration, frame) /\
    List.length (filter is_through_populate (operations migration)) =
      List.length (through_models found) /\
    List.length (filter is_child_populate (operations migration)) =
      List.length (children_of child_models (fk_models found)) /\
    (forall through,
       last_opt (through_models found) = Some through ->
       call_lambda frame lambda_update_through =
       Ok (update_foreign_keys_call parent_model (t_model through) app_name
             (t_app_name through) (t_field_name through) pk_field)) /\
    (forall child,
       last_opt (children_of child_models (fk_models found)) = Some child ->
       call_lambda frame lambda_update_child =
       Ok (update_foreign_keys_call parent_model (c_model child) app_name
             (match c_app_name child with Some app => app | None => app_name end)
             (c_fk_field child) pk_field)).
Proof.
  intros Hfound Himplicit.
  eexists. eexists.
  split; [exact (create_uuid_migration_detected _ _ _ _ _ _ found Hfound Himplicit)|].
  cbn [operations].
  destruct (populate_steps_counted parent_model app_name pk_field
              (through_models found) (children_of child_models (fk_models found)))
    as [Ht Hc].
  split; [exact Ht|]. split; [exact Hc|]. split.
  - intros through Hlast. unfold call_lambda, final_frame. frame_projections.
    rewrite Hlast. reflexivity.
  - intros child Hlast. unfold call_lambda, final_frame. frame_projections.
    rewrite Hlast. reflexivity.
Qed.

Lemma X8_witness :
  exists migration frame,
    create_uuid_migration Shop.registry "Order" "shop" []
      (Some [Shop.LineItem_order; Shop.Invoice_order]) "id" true =
      (Ok migration, frame) /\
    List.length (filter is_child_populate (operations migration)) = 2 /\
    call_lambda frame lambda_update_child =
      Ok (update_foreign_keys_call "Order" "Invoice" "shop" "billing"
            "customer_order" "id").
Proof.
  assert (Hfound : find_related_models "shop" "Order" Shop.registry =
                     Ok Shop.discovered) by (vm_compute; reflexivity).
  destruct (X8_populate_steps_share_the_last_binding Shop.registry "Order" "shop" []
              (Some [Shop.LineItem_order; Shop.Invoice_order]) "id"
              Shop.discovered Hfound eq_refl)
    as (migration & frame & Hrun & _ & Hcount & _ & Hchild).
  exists migration, frame. split; [exact Hrun|]. split; [exact Hcount|].
  exact (Hchild Shop.Invoice_order eq_refl).
Defined.

(** ** The remediation report *)

Lemma occurs_in_trans (a b c : string) : occurs_in a b -> occurs_in b c -> occurs_in a c.
Proof.
  intros (p & q & ->) (p' & q' & ->).
  exists (p' ++ p)%string, (q ++ q')%string. now rewrite !append_assoc.
Qed.

Lemma occurs_in_suffix (head piece : string) : occurs_in piece (head ++ piece)%string.
Proof. exists head, ""%string. now rewrite append_empty_r. Qed.

Lemma enumerate_from (A : Type) (l : list A) (start i : nat) (x : A) :
  nth_error l i = Some x ->
  In (start + i, x) (combine (seq start (List.length l)) l).
Proof.
  revert start i. induction l as [|y l IH]; intros start i H.
  - destruct i; discriminate.
  - destruct i as [|i]; simpl in *.
    + injection H as <-. left. f_equal. lia.
    + right. replace (start + S i) with (S start + i) by lia. now apply IH.
Qed.

(** X9: the error message of the implicit many-to-many check lists every
    implicit relation, numbered from 1 in the order of discovery, with its
    application, model and field, also when two relations share one
    through-model name. *)
Theorem X9_error_message_lists_every_relation (parent_model : string)
    (implicit_m2m : list M2MInfo) (i : nat) (m2m : M2MInfo) :
  nth_error implicit_m2m i = Some m2m ->
  occurs_in
    (fmt [str_of_nat (i + 1); ". Модель "; m_app_name m2m; "."; m_model m2m;
          ", поле "; m_field_name m2m; nl])
    (error_message parent_model implicit_m2m).
Proof.
  intro Hnth. change (fmt _) with (relation_line i m2m) at 1.
  unfold error_message.
  destruct (generate_through_model_code implicit_m2m) as [codes hints].
  apply occurs_in_append_r.
  apply (fold_left_invariant _ (fun message => occurs_in (relation_line i m2m) message));
    [|intros message [k v] _ H; now apply occurs_in_append_r].
  do 2 apply occurs_in_append_r.
  apply (fold_left_invariant _ (fun message => occurs_in (relation_line i m2m) message));
    [|intros message [k v] _ H; now apply occurs_in_append_r].
  do 2 apply occurs_in_append_r.
  apply (fold_left_reaches _ (fun message => occurs_in (relation_line i m2m) message)
           _ _ (i, m2m)).
  - exact (enumerate_from _ implicit_m2m 0 i m2m Hnth).
  - intro message. apply occurs_in_suffix.
  - intros message [j m] H. now apply occurs_in_append_r.
Qed.

Lemma X9_witness :
  occurs_in
    (fmt [str_of_nat (0 + 1); ". Модель "; "catalog"; "."; "Product";
          ", поле "; "tags"; nl])
    (error_message "Product" [Catalog.Product_tags_relation]).
Proof.
  apply (X9_error_message_lists_every_relation "Product"
           [Catalog.Product_tags_relation] 0 Catalog.Product_tags_relation).
  reflexivity.
Defined.

(** *** The two dictionaries *)

Lemma dict_set_keys (d : Dict) (k v k' : string) :
  In k' (map fst (dict_set d k v)) <-> k' = k \/ In k' (map fst d).
Proof.
  induction d as [|[k0 v0] d IH]; simpl.
  - intuition.
  - destruct (String.eqb k0 k) eqn:E; simpl.
    + apply String.eqb_eq in E. subst k0. intuition.
    + rewrite IH. intuition.
Qed.

Lemma dict_set_nodup (d : Dict) (k v : string) :
  NoDup (map fst d) -> NoDup (map fst (dict_set d k v)).
Proof.
  induction d as [|[k0 v0] d IH]; simpl; intro H.
  - constructor; [intros []|constructor].
  - destruct (String.eqb k0 k) eqn:E; simpl; [exact H|].
    inversion H as [|? ? Hnotin Hnodup]; subst.
    constructor; [|now apply IH].
    rewrite dict_set_keys. intros [->|Hin]; [|contradiction].
    rewrite String.eqb_refl in E. discriminate.
Qed.

Lemma dict_set_same_keys (d1 d2 : Dict) (k v1 v2 : string) :
  map fst d1 = map fst d2 ->
  map fst (dict_set d1 k v1) = map fst (dict_set d2 k v2).
Proof.
  revert d2. induction d1 as [|[k1 w1] d1 IH]; intros [|[k2 w2] d2] H;
    try discriminate; [reflexivity|].
  simpl in H. injection H as -> H. simpl.
  destruct (String.eqb k2 k); simpl; f_equal; auto.
Qed.

Lemma dict_set_in (d : Dict) (k v : string) : In (k, v) (dict_set d k v).
Proof.
  induction d as [|[k0 v0] d IH]; simpl; [now left|].
  destruct (String.eqb k0 k) eqn:E.
  - apply String.eqb_eq in E. subst. now left.
  - now right.
Qed.

Lemma dict_set_other (d : Dict) (k v k' v' : string) :
  k' <> k -> In (k, v) d -> In (k, v) (dict_set d k' v').
Proof.
  intros Hne. induction d as [|[k0 v0] d IH]; simpl; [tauto|].
  intros [H|H].
  - injection H as -> ->.
    destruct (String.eqb k k') eqn:E; [|now left].
    apply String.eqb_eq in E. congruence.
  - destruct (String.eqb k0 k'); right; auto.
Qed.

Lemma generate_through_model_code_fold (implicit_m2m : list M2MInfo) :
  generate_through_model_code implicit_m2m = fold_left report_step implicit_m2m ([], []).
Proof.
  unfold generate_through_model_code.
  generalize (@nil (string * string), @nil (string * string)).
  induction implicit_m2m as [|m2m l IH]; intros [c h]; [reflexivity|].
  cbn [fold_left]. rewrite IH. reflexivity.
Qed.

Lemma report_keys (l : list M2MInfo) (acc : Dict * Dict) :
  map fst (fst acc) = map fst (snd acc) ->
  NoDup (map fst (fst acc)) ->
  map fst (fst (fold_left report_step l acc)) =
    map fst (snd (fold_left report_step l acc)) /\
  NoDup (map fst (fst (fold_left report_step l acc))) /\
  (forall k, In k (map fst (fst (fold_left report_step l acc))) <->
             In k (map fst (fst acc)) \/
             exists m2m, In m2m l /\ through_model_name m2m = k).
Proof.
  revert acc. induction l as [|m l IH]; intros [c h] Hsame Hnodup.
  - simpl. repeat split; auto. intros [H|(m & [] & _)]. exact H.
  - cbn [fold_left].
    destruct (IH (report_step (c, h) m)) as (H1 & H2 & H3).
    + simpl. now apply dict_set_same_keys.
    + simpl. now apply dict_set_nodup.
    + split; [exact H1|]. split; [exact H2|].
      intro k. rewrite H3. cbn [report_step fst]. rewrite dict_set_keys. split.
      * intros [[->|H]|(m' & Hin & Hk)].
        -- right. exists m. split; [now left | reflexivity].
        -- now left.
        -- right. exists m'. split; [now right | exact Hk].
      * intros [H|(m' & [<-|Hin] & Hk)].
        -- left. now right.
        -- left. left. now symmetry.
        -- right. exists m'. auto.
Qed.

(** X10: generate_through_model_code returns two dictionaries with the
    same keys in the same order, one key per distinct through-model name of
    the relations: relations that share a name share one entry. *)
Theorem X10_one_report_entry_per_through_name (implicit_m2m : list M2MInfo) :
  map fst (fst (generate_through_model_code implicit_m2m)) =
    map fst (snd (generate_through_model_code implicit_m2m)) /\
  NoDup (map fst (fst (generate_through_model_code implicit_m2m))) /\
  (forall key,
     In key (map fst (fst (generate_through_model_code implicit_m2m))) <->
     exists m2m, In m2m implicit_m2m /\ through_model_name m2m = key).
Proof.
  rewrite generate_through_model_code_fold.
  destruct (report_keys implicit_m2m ([], [])) as (H1 & H2 & H3).
  - reflexivity.
  - constructor.
  - split; [exact H1|]. split; [exact H2|].
    intro key. rewrite H3. simpl. tauto.
Qed.

Lemma report_last_wins (front back : list M2MInfo) (m2m : M2MInfo) :
  (forall later, In later back ->
     through_model_name later <> through_model_name m2m) ->
  In (through_model_name m2m, model_code m2m)
     (fst (generate_through_model_code (front ++ m2m :: back))) /\
  In (through_model_name m2m, migration_hint m2m)
     (snd (generate_through_model_code (front ++ m2m :: back))).
Proof.
  intro Hlater. rewrite generate_through_model_code_fold, fold_left_app.
  cbn [fold_left].
  apply (fold_left_invariant report_step
           (fun acc => In (through_model_name m2m, model_code m2m) (fst acc) /\
                       In (through_model_name m2m, migration_hint m2m) (snd acc))).
  - destruct (fold_left report_step front ([], [])) as [c h]. simpl.
    split; apply dict_set_in.
  - intros [c h] later Hin [Hc Hh]. simpl.
    split; apply dict_set_other; auto.
Qed.

(** X11: a relation whose through-model name is not used by a later
    relation of the list is reported in full: its generated model
    definition and its migration recipe are in the two dictionaries under
    that name, and the error message of create_uuid_migration holds both,
    and with the recipe the join-table name inferred for the relation. *)
Theorem X11_last_relation_of_a_name_is_reported (parent_model : string)
    (front back : list M2MInfo) (m2m : M2MInfo) :
  (forall later, In later back ->
     through_model_name later <> through_model_name m2m) ->
  In (through_model_name m2m, model_code m2m)
     (fst (generate_through_model_code (front ++ m2m :: back))) /\
  In (through_model_name m2m, migration_hint m2m)
     (snd (generate_through_model_code (front ++ m2m :: back))) /\
  occurs_in (model_code m2m) (error_message parent_model (front ++ m2m :: back)) /\
  occurs_in (migration_hint m2m) (error_message parent_model (front ++ m2m :: back)) /\
  occurs_in (automatic_table_name m2m)
    (error_message parent_model (front ++ m2m :: back)).
Proof.
  intro Hlater.
  destruct (report_last_wins front back m2m Hlater) as [Hcode Hhint].
  assert (Hmsg : occurs_in (migration_hint m2m)
                   (error_message parent_model (front ++ m2m :: back))).
  { apply (error_message_carries_report _ _ (through_model_name m2m)). now right. }
  split; [exact Hcode|]. split; [exact Hhint|]. split; [|split].
  - apply (error_message_carries_report _ _ (through_model_name m2m)). now left.
  - exact Hmsg.
  - eapply occurs_in_trans; [|exact Hmsg].
    unfold migration_hint. apply occurs_in_fmt.
Qed.

Lemma X11_witness :
  occurs_in (automatic_table_name Catalog.Product_tags_relation)
    (error_message "Product" ([] ++ Catalog.Product_tags_relation :: [])).
Proof.
  apply (X11_last_relation_of_a_name_is_reported "Product" []
           [] Catalog.Product_tags_relation).
  intros later [].
Defined.

(** X12: an implicit relation found on another model (a field of that
    model that targets the parent) is reported under a through-model name
    made of that model's name twice and "Through"; the parent's name is not
    part of it. *)
Theorem X12_through_name_of_an_inbound_relation (app_name parent_model : string)
    (apps_registry : Apps) (found : Found) (parent_model_obj model : Model)
    (field : ManyToManyField) :
  find_related_models app_name parent_model apps_registry = Ok found ->
  get_model apps_registry app_name parent_model = Ok parent_model_obj ->
  In model (all_models apps_registry) ->
  auto_created (_meta model) = false ->
  In field (many_to_many model) ->
  related_to (Some (m2m_related_model field)) parent_model_obj = true ->
  auto_created (through field) = true ->
  In (object_name (label (_meta model)) ++ object_name (label (_meta model)) ++
      "Through")%string
     (map fst (fst (generate_through_model_code (implicit_m2m found)))).
Proof.
  intros Hfound Hget Hin Hreg Hfield Hto Hauto.
  assert (Hmodel : In model (get_models apps_registry)).
  { unfold get_models. apply filter_In. split; [exact Hin|]. now apply negb_true_iff. }
  pose proof (inbound_implicit_listed _ _ _ _ _ _ _ Hfound Hget Hmodel Hfield Hto Hauto)
    as Hlisted.
  rewrite generate_through_model_code_fold.
  destruct (report_keys (implicit_m2m found) ([], [])) as (_ & _ & Hkeys);
    [reflexivity | constructor |].
  apply Hkeys. right. eexists. split; [exact Hlisted|]. reflexivity.
Qed.

Lemma X12_witness :
  In ("Product" ++ "Product" ++ "Through")%string
     (map fst (fst (generate_through_model_code
                      [{| m_model := "Product"; m_app_name := "catalog";
                          m_field_name := "tags"; m_related := None |}]))).
Proof.
  apply (X12_through_name_of_an_inbound_relation "catalog" "Tag" Catalog.registry
           {| fk_models := [];
              implicit_m2m := [{| m_model := "Product"; m_app_name := "catalog";
                                  m_field_name := "tags"; m_related := None |}];
              through_models := [] |}
           Catalog.Tag Catalog.Product
           {| m2m_name := "tags"; m2m_related_model := Catalog.Tag_ref;
              through := Catalog.Product_tags_meta |}).
  - vm_compute. reflexivity.
  - vm_compute. reflexivity.
  - simpl. auto.
  - reflexivity.
  - simpl. auto.
  - vm_compute. reflexivity.
  - reflexivity.
Defined.

(** ** The data steps *)

Lemma objects_get_filter (ParentModel : list ParentRow) (value : option Z) :
  objects_get ParentModel value =
  match filter (pk_is value) ParentModel with
  | [] => inr DoesNotExist
  | [p] => inl p
  | _ :: _ :: _ => inr MultipleObjectsReturned
  end.
Proof. reflexivity. Qed.

Lemma pk_is_true (value : option Z) (p : ParentRow) :
  pk_is value p = true <-> value = Some (pk p).
Proof.
  destruct value as [v|]; simpl.
  - rewrite Z.eqb_eq. split; congruence.
  - split; discriminate.
Qed.

Lemma filter_absent (ParentModel : list ParentRow) (value : option Z) :
  (forall p, In p ParentModel -> value <> Some (pk p)) ->
  filter (pk_is value) ParentModel = [].
Proof.
  induction ParentModel as [|x l IH]; intro H; [reflexivity|].
  simpl. destruct (pk_is value x) eqn:E.
  - apply pk_is_true in E. exfalso. apply (H x); [now left | exact E].
  - apply IH. intros p Hp. apply H. now right.
Qed.

Lemma filter_unique (ParentModel : list ParentRow) (value : option Z) :
  NoDup (map pk ParentModel) ->
  filter (pk_is value) ParentModel = [] \/
  exists p, filter (pk_is value) ParentModel = [p].
Proof.
  induction ParentModel as [|x l IH]; intro Hnodup; [now left|].
  simpl in Hnodup. inversion Hnodup as [|? ? Hnotin Hrest]; subst.
  simpl. destruct (pk_is value x) eqn:E.
  - right. exists x. f_equal. apply filter_absent.
    intros p Hp Hv. apply pk_is_true in E. apply Hnotin.
    replace (pk x) with (pk p) by congruence. now apply in_map.
  - now apply IH.
Qed.

(** With unique primary keys, [get] finds the parent with the key or
    raises DoesNotExist. *)
Lemma objects_get_unique (ParentModel : list ParentRow) (value : option Z) :
  NoDup (map pk ParentModel) ->
  (exists p, objects_get ParentModel value = inl p /\
             In p ParentModel /\ value = Some (pk p) /\
             forall q, In q ParentModel -> value = Some (pk q) -> q = p) \/
  (objects_get ParentModel value = inr DoesNotExist /\
   forall q, In q ParentModel -> value <> Some (pk q)).
Proof.
  intro Hnodup. rewrite objects_get_filter.
  destruct (filter_unique ParentModel value Hnodup) as [E|(p & E)]; rewrite E.
  - right. split; [reflexivity|]. intros q Hq Hv.
    assert (Hin : In q (filter (pk_is value) ParentModel)).
    { apply filter_In. split; [exact Hq | now apply pk_is_true]. }
    rewrite E in Hin. exact Hin.
  - left. exists p.
    assert (Hp : In p (filter (pk_is value) ParentModel)) by (rewrite E; now left).
    apply filter_In in Hp. destruct Hp as [Hp Hv]. apply pk_is_true in Hv.
    repeat split; auto.
    intros q Hq Hvq.
    assert (Hin : In q (filter (pk_is value) ParentModel)).
    { apply filter_In. split; [exact Hq | now apply pk_is_true]. }
    rewrite E in Hin. destruct Hin as [<-|[]]. reflexivity.
Qed.

(** X13: update_foreign_keys adds no row, removes none, keeps their order
    and never changes the old foreign-key value of a row, whether it ends
    normally or with an exception. *)
Theorem X13_update_keeps_the_rows_and_their_keys (ParentModel : list ParentRow)
    (fk_null : bool) (children : list ChildRow) :
  map fk_id (fst (update_foreign_keys ParentModel fk_null children)) =
  map fk_id children.
Proof.
  induction children as [|child rest IH]; [reflexivity|].
  cbn [update_foreign_keys].
  destruct (objects_get ParentModel (fk_id child)) as [p|[|]].
  - destruct (update_foreign_keys ParentModel fk_null rest) as [rest' e].
    simpl in *. now rewrite IH.
  - destruct (update_foreign_keys ParentModel fk_null rest) as [rest' e].
    simpl in *. rewrite IH. destruct fk_null; reflexivity.
  - reflexivity.
Qed.

Lemma update_foreign_keys_no_exception (ParentModel : list ParentRow)
    (fk_null : bool) (children : list ChildRow) :
  NoDup (map pk ParentModel) ->
  snd (update_foreign_keys ParentModel fk_null children) = None.
Proof.
  intro Hnodup. induction children as [|child rest IH]; [reflexivity|].
  cbn [update_foreign_keys].
  destruct (objects_get_unique ParentModel (fk_id child) Hnodup)
    as [(p & -> & _)|[-> _]];
    destruct (update_foreign_keys ParentModel fk_null rest) as [rest' e];
    exact IH.
Qed.

Lemma update_foreign_keys_row_by_row (ParentModel : list ParentRow)
    (fk_null : bool) (children : list ChildRow) :
  NoDup (map pk ParentModel) ->
  Forall2 (row_updated ParentModel fk_null) children
    (fst (update_foreign_keys ParentModel fk_null children)).
Proof.
  intro Hnodup. induction children as [|child rest IH]; [constructor|].
  cbn [update_foreign_keys].
  destruct (objects_get_unique ParentModel (fk_id child) Hnodup)
    as [(p & -> & Hp & Hv & Huniq)|[-> Hnone]];
    destruct (update_foreign_keys ParentModel fk_null rest) as [rest' e];
    cbn [fst] in *; constructor; try exact IH.
  - split; [reflexivity|]. split.
    + intros parent Hparent Hk. cbn [fk_uuid].
      now rewrite (Huniq parent Hparent Hk).
    + intro Hno. exfalso. exact (Hno p Hp Hv).
  - split; [destruct fk_null; reflexivity|]. split.
    + intros parent Hparent Hk. exfalso. exact (Hnone parent Hparent Hk).
    + intros _. destruct fk_null; reflexivity.
Qed.

(** X14: when the primary keys of the parent table are unique,
    update_foreign_keys ends without an exception, and every row is
    updated as the code reads: a row whose parent exists gets that parent's
    surrogate; a row without parent gets an empty surrogate when the field
    is nullable and is left as it was when it is not. *)
Theorem X14_update_with_unique_primary_keys (ParentModel : list ParentRow)
    (fk_null : bool) (children : list ChildRow) :
  NoDup (map pk ParentModel) ->
  snd (update_foreign_keys ParentModel fk_null children) = None /\
  Forall2
    (fun before after =>
       fk_id after = fk_id before /\
       (forall parent, In parent ParentModel -> fk_id before = Some (pk parent) ->
          fk_uuid after = pk_uuid parent) /\
       ((forall parent, In parent ParentModel -> fk_id before <> Some (pk parent)) ->
        fk_uuid after = if fk_null then None else fk_uuid before))
    children (fst (update_foreign_keys ParentModel fk_null children)).
Proof.
  intro Hnodup. split.
  - now apply update_foreign_keys_no_exception.
  - exact (update_foreign_keys_row_by_row ParentModel fk_null children Hnodup).
Qed.

Lemma X14_witness :
  snd (update_foreign_keys
         [{| pk := 1; pk_uuid := Some 11%N |}; {| pk := 2; pk_uuid := Some 22%N |}]
         true
         [{| fk_id := Some 2%Z; fk_uuid := None |};
          {| fk_id := Some 7%Z; fk_uuid := Some 5%N |}]) = None.
Proof.
  apply (X14_update_with_unique_primary_keys
           [{| pk := 1; pk_uuid := Some 11%N |}; {| pk := 2; pk_uuid := Some 22%N |}]
           true
           [{| fk_id := Some 2%Z; fk_uuid := None |};
            {| fk_id := Some 7%Z; fk_uuid := Some 5%N |}]).
  simpl. repeat constructor; simpl; intuition discriminate.
Defined.

(** X15: running update_foreign_keys again on the table it left gives the
    same table and the same outcome: a rerun changes nothing, also after a
    run that an exception ended. *)
Theorem X15_update_can_be_rerun (ParentModel : list ParentRow)
    (fk_null : bool) (children : list ChildRow) :
  update_foreign_keys ParentModel fk_null
    (fst (update_foreign_keys ParentModel fk_null children)) =
  update_foreign_keys ParentModel fk_null children.
Proof.
  induction children as [|child rest IH]; [reflexivity|].
  cbn [update_foreign_keys].
  destruct (objects_get ParentModel (fk_id child)) as [p|[|]] eqn:Hget.
  - destruct (update_foreign_keys ParentModel fk_null rest) as [rest' e].
    cbn [fst] in *. cbn [update_foreign_keys fk_id]. rewrite Hget, IH. reflexivity.
  - destruct (update_foreign_keys ParentModel fk_null rest) as [rest' e].
    cbn [fst] in *. cbn [update_foreign_keys].
    destruct fk_null; cbn [fk_id]; rewrite Hget, IH; reflexivity.
  - cbn [fst update_foreign_keys]. rewrite Hget. reflexivity.
Qed.

Lemma generate_uuid_for_model_rows (uuid4 : nat -> N) (calls : nat)
    (rows : list ParentRow) :
  map pk (fst (generate_uuid_for_model uuid4 calls rows)) = map pk rows /\
  map pk_uuid (fst (generate_uuid_for_model uuid4 calls rows)) =
    map (fun n => Some (uuid4 n)) (seq calls (List.length rows)) /\
  snd (generate_uuid_for_model uuid4 calls rows) = calls + List.length rows.
Proof.
  revert calls. induction rows as [|instance rest IH]; intro calls.
  - simpl. repeat split. lia.
  - cbn [generate_uuid_for_model].
    destruct (IH (S calls)) as (H1 & H2 & H3).
    destruct (generate_uuid_for_model uuid4 (S calls) rest) as [rest' calls'].
    cbn [fst snd] in *. simpl. rewrite H1, H2, H3. repeat split. lia.
Qed.

(** X16: generate_uuid_for_model keeps the rows and their primary keys,
    calls uuid4 once per row, and gives every row the value of its own
    call, whatever surrogate the row had before: a rerun replaces the
    identifiers of the first run. *)
Theorem X16_every_row_gets_its_own_uuid (uuid4 : nat -> N) (calls : nat)
    (rows : list ParentRow) :
  map pk (fst (generate_uuid_for_model uuid4 calls rows)) = map pk rows /\
  map pk_uuid (fst (generate_uuid_for_model uuid4 calls rows)) =
    map (fun n => Some (uuid4 n)) (seq calls (List.length rows)) /\
  snd (generate_uuid_for_model uuid4 calls rows) = calls + List.length rows.
Proof. apply generate_uuid_for_model_rows. Qed.

Lemma generate_uuid_for_model_in (uuid4 : nat -> N) (calls : nat)
    (rows : list ParentRow) (p : ParentRow) :
  In p (fst (generate_uuid_for_model uuid4 calls rows)) ->
  exists i original,
    nth_error rows i = Some original /\
    pk p = pk original /\
    pk_uuid p = Some (uuid4 (calls + i)).
Proof.
  revert calls. induction rows as [|instance rest IH]; intros calls Hin.
  - destruct Hin.
  - cbn [generate_uuid_for_model] in Hin.
    specialize (IH (S calls)).
    destruct (generate_uuid_for_model uuid4 (S calls) rest) as [rest' calls'].
    cbn [fst] in *. destruct Hin as [<-|Hin].
    + exists 0, instance. simpl. repeat split. f_equal. f_equal. lia.
    + destruct (IH Hin) as (i & original & Hnth & Hpk & Huuid).
      exists (S i), original. simpl. repeat split; auto.
      rewrite Huuid. f_equal. f_equal. lia.
Qed.

Lemma generate_uuid_for_model_has (uuid4 : nat -> N) (calls : nat)
    (rows : list ParentRow) (original : ParentRow) :
  In original rows ->
  exists p, In p (fst (generate_uuid_for_model uuid4 calls rows)) /\
            pk p = pk original.
Proof.
  intro Hin.
  destruct (generate_uuid_for_model_rows uuid4 calls rows) as (Hpk & _).
  assert (H : In (pk original) (map pk (fst (generate_uuid_for_model uuid4 calls rows)))).
  { rewrite Hpk. now apply in_map. }
  apply in_map_iff in H. destruct H as (p & Hp & Hin'). exists p. auto.
Qed.

Lemma nth_error_unique_pk (rows : list ParentRow) (i j : nat) (a b : ParentRow) :
  NoDup (map pk rows) ->
  nth_error rows i = Some a -> nth_error rows j = Some b ->
  pk a = pk b -> i = j.
Proof.
  intros Hnodup Ha Hb Hpk.
  apply (proj1 (NoDup_nth_error (map pk rows)) Hnodup i j).
  - rewrite length_map. apply nth_error_Some. congruence.
  - rewrite !nth_error_map, Ha, Hb. simpl. congruence.
Qed.

Lemma Forall2_nth_error {A B : Type} (R : A -> B -> Prop) (l : list A) (l' : list B)
    (i : nat) (a : A) (b : B) :
  Forall2 R l l' -> nth_error l i = Some a -> nth_error l' i = Some b -> R a b.
Proof.
  intro H. revert i. induction H as [|x y l l' Hxy _ IH]; intros i Ha Hb.
  - destruct i; discriminate.
  - destruct i as [|i]; simpl in *.
    + congruence.
    + eapply IH; eassumption.
Qed.

(** X17: the two data steps together keep the links.  When the primary
    keys of the parent table are unique and uuid4 never returns a value
    twice, then after generate_uuid_for_model on the parents and
    update_foreign_keys on the children, two child rows whose parents exist
    carry the same surrogate exactly when they carried the same old key,
    and neither surrogate is empty. *)
Theorem X17_surrogates_keep_the_links (uuid4 : nat -> N) (calls : nat)
    (parents : list ParentRow) (fk_null : bool) (children : list ChildRow)
    (i j : nat) (ci cj ri rj : ChildRow) :
  NoDup (map pk parents) ->
  (forall a b, uuid4 a = uuid4 b -> a = b) ->
  nth_error children i = Some ci ->
  nth_error children j = Some cj ->
  nth_error
    (fst (update_foreign_keys
            (fst (generate_uuid_for_model uuid4 calls parents)) fk_null children))
    i = Some ri ->
  nth_error
    (fst (update_foreign_keys
            (fst (generate_uuid_for_model uuid4 calls parents)) fk_null children))
    j = Some rj ->
  (exists p, In p parents /\ fk_id ci = Some (pk p)) ->
  (exists p, In p parents /\ fk_id cj = Some (pk p)) ->
  (fk_uuid ri = fk_uuid rj <-> fk_id ci = fk_id cj) /\
  fk_uuid ri <> None /\ fk_uuid rj <> None.
Proof.
  intros Hnodup Hinj Hci Hcj Hri Hrj (pi & Hpi & Hki) (pj & Hpj & Hkj).
  set (ParentModel := fst (generate_uuid_for_model uuid4 calls parents)) in *.
  assert (Hnodup' : NoDup (map pk ParentModel)).
  { unfold ParentModel.
    destruct (generate_uuid_for_model_rows uuid4 calls parents) as (-> & _).
    exact Hnodup. }
  pose proof (update_foreign_keys_row_by_row ParentModel fk_null children Hnodup')
    as Hrows.
  destruct (Forall2_nth_error _ _ _ _ _ _ Hrows Hci Hri) as (_ & Hlinki & _).
  destruct (Forall2_nth_error _ _ _ _ _ _ Hrows Hcj Hrj) as (_ & Hlinkj & _).
  destruct (generate_uuid_for_model_has uuid4 calls parents pi Hpi) as (qi & Hqi & Hqpi).
  destruct (generate_uuid_for_model_has uuid4 calls parents pj Hpj) as (qj & Hqj & Hqpj).
  assert (Hui : fk_uuid ri = pk_uuid qi) by (apply Hlinki; [exact Hqi | congruence]).
  assert (Huj : fk_uuid rj = pk_uuid qj) by (apply Hlinkj; [exact Hqj | congruence]).
  destruct (generate_uuid_for_model_in uuid4 calls parents qi Hqi)
    as (ni & oi & Hni & Hoi & Hgi).
  destruct (generate_uuid_for_model_in uuid4 calls parents qj Hqj)
    as (nj & oj & Hnj & Hoj & Hgj).
  split; [|split].
  - rewrite Hui, Huj, Hgi, Hgj. split.
    + intro H. injection H as H. apply Hinj in H.
      assert (ni = nj) by lia. subst nj.
      rewrite Hni in Hnj. injection Hnj as <-. congruence.
    + intro H.
      assert (Hsame : ni = nj).
      { apply (nth_error_unique_pk parents ni nj oi oj Hnodup Hni Hnj). congruence. }
      now rewrite Hsame.
  - rewrite Hui, Hgi. discriminate.
  - rewrite Huj, Hgj. discriminate.
Qed.

Lemma X17_witness :
  (fk_uuid {| fk_id := Some 2%Z; fk_uuid := Some 1%N |} =
   fk_uuid {| fk_id := Some 1%Z; fk_uuid := Some 0%N |} <->
   Some 2%Z = Some 1%Z) /\
  Some 1%N <> None /\ Some 0%N <> None.
Proof.
  apply (X17_surrogates_keep_the_links N.of_nat 0
           [{| pk := 1; pk_uuid := None |}; {| pk := 2; pk_uuid := None |}] false
           [{| fk_id := Some 2%Z; fk_uuid := None |};
            {| fk_id := Some 1%Z; fk_uuid := None |}] 0 1
           {| fk_id := Some 2%Z; fk_uuid := None |}
           {| fk_id := Some 1%Z; fk_uuid := None |}
           {| fk_id := Some 2%Z; fk_uuid := Some 1%N |}
           {| fk_id := Some 1%Z; fk_uuid := Some 0%N |}).
  - simpl. repeat constructor; simpl; intuition discriminate.
  - intros a b H. lia.
  - reflexivity.
  - reflexivity.
  - reflexivity.
  - reflexivity.
  - exists {| pk := 2; pk_uuid := None |}. split; [simpl; auto | reflexivity].
  - exists {| pk := 1; pk_uuid := None |}. split; [simpl; auto | reflexivity].
Defined.

(** ** Join models in both lists *)

(** X18: in a registry where every explicit join model is itself a
    registered model, every entry of the through list of
    find_related_models is also an entry of its foreign-key list: with the
    default arguments of create_uuid_migration each join model is handled
    by the through loop and by the child loop. *)
Theorem X18_through_fields_are_also_foreign_keys (app_name parent_model : string)
    (apps_registry : Apps) (found : Found) (t : ThroughInfo) :
  (forall model field,
     In model (all_models apps_registry) ->
     In field (many_to_many model) ->
     auto_created (through field) = false ->
     exists join_model,
       In join_model (all_models apps_registry) /\ _meta join_model = through field) ->
  find_related_models app_name parent_model apps_registry = Ok found ->
  In t (through_models found) ->
  In {| c_model := t_model t;
        c_app_name := Some (t_app_name t);
        c_fk_field := t_field_name t |} (fk_models found).
Proof.
  intros Hregistered Hfound Hin.
  destruct (find_related_models_resolved _ _ _ _ Hfound) as (p & Hget & Heq).
  assert (Hsound : through_entry_of apps_registry p t).
  { rewrite Heq in Hin.
    apply (find_related_models_through_sound _ _ _ _ Hget). exact Hin. }
  destruct Hsound as (model & field & through_field & Hmodel & Hfield & Hauto &
                      Htf & Hrel & Hto & ->).
  destruct (Hregistered model field Hmodel Hfield Hauto) as (join_model & Hjoin & Hmeta).
  assert (Hlisted : In (child_entry join_model through_field) (fk_models found)).
  { apply (foreign_key_listed _ _ _ _ p join_model through_field Hfound Hget).
    - unfold get_models. apply filter_In. split; [exact Hjoin|].
      rewrite Hmeta, Hauto. reflexivity.
    - rewrite Hmeta. exact Htf.
    - exact Hrel.
    - exact Hto. }
  unfold child_entry in Hlisted. rewrite Hmeta in Hlisted. exact Hlisted.
Qed.

Lemma X18_witness :
  In {| c_model := "OrderTagThrough"; c_app_name := Some "shop";
        c_fk_field := "order" |} (fk_models Shop.discovered).
Proof.
  apply (X18_through_fields_are_also_foreign_keys "shop" "Order" Shop.registry
           Shop.discovered Shop.OrderTagThrough_order).
  - intros model field Hmodel Hfield Hauto.
    exists Shop.OrderTagThrough. split; [simpl; auto|].
    simpl in Hmodel.
    destruct Hmodel as [<-|[<-|[<-|[<-|[]]]]]; simpl in Hfield;
      try contradiction.
    destruct Hfield as [<-|[]]. reflexivity.
  - vm_compute. reflexivity.
  - simpl. left. reflexivity.
Defined.

(** ** The join-table name in the report *)









Example library_join_table_name :
  automatic_table_name Library.Book_editors_relation = "library_book_editors".
Proof. vm_compute. reflexivity. Qed.
